(** * data_cleaning.py: column normalisation, field parsers and the cleaning pass

    A shallow embedding of [src/data_cleaning.py] and the properties its
    specification states about it.

    Conventions of the embedding.
    - A Python [str] is a [string]; each character stands for one code point
      below 256, and the character classes below ([str.isspace], [\d],
      [str.lower]) are Python's on that range.  Text with code points from
      256 on is outside the model.
    - A missing value ([NaN], [None], [NaT]: whatever [pd.isna] accepts) is
      one value, [Missing] in a table cell and [None] as a parser argument.
    - A Python exception is a [Raise] in the [result] monad. *)

From Stdlib Require Import ZArith NArith Ascii String DecimalString.
From stdpp Require Import base tactics option list gmap strings.

Local Open Scope string_scope.

(** ** Exceptions *)

Inductive exn := ValueError | IndexError | TypeError | KeyError.

Inductive result (A : Type) :=
  | Ok (a : A)
  | Raise (e : exn).
Arguments Ok {A} a.
Arguments Raise {A} e.

Definition rbind {A B} (k : A → result B) (r : result A) : result B :=
  match r with
  | Ok a => k a
  | Raise e => Raise e
  end.

#[global] Instance result_bind : MBind result := @rbind.
#[global] Instance result_ret : MRet result := @Ok.
#[global] Instance result_fmap : FMap result := λ A B f r,
  match r with
  | Ok a => Ok (f a)
  | Raise e => Raise e
  end.

(** [l[i]] and [l[-1]] of a Python list. *)
Definition getitem {A} (l : list A) (i : nat) : result A :=
  match l !! i with
  | Some x => Ok x
  | None => Raise IndexError
  end.

Definition getitem_last {A} (l : list A) : result A :=
  match last l with
  | Some x => Ok x
  | None => Raise IndexError
  end.

(** [Series.apply f]: [f] row by row, the first exception aborts. *)
Fixpoint apply_rows {A B} (f : A → result B) (l : list A) : result (list B) :=
  match l with
  | [] => Ok []
  | x :: l' => y ← f x; ys ← apply_rows f l'; Ok (y :: ys)
  end.

(** ** Python strings *)

Module Py.

(** [str.isspace] on one character; also the regular expression's [\s]. *)
Definition is_space (c : ascii) : bool :=
  let n := N_of_ascii c in
  (((9 <=? n) && (n <=? 13)) || ((28 <=? n) && (n <=? 32))
   || (n =? 133) || (n =? 160))%N.

(** The regular expression's [\d] (and the class [0-9]). *)
Definition is_digit (c : ascii) : bool :=
  let n := N_of_ascii c in ((48 <=? n) && (n <=? 57))%N.

(** The class [0-9a-zA-Z]. *)
Definition is_alnum (c : ascii) : bool :=
  let n := N_of_ascii c in
  (((48 <=? n) && (n <=? 57)) || ((65 <=? n) && (n <=? 90))
   || ((97 <=? n) && (n <=? 122)))%N.

(** The class [0-9?]. *)
Definition is_digit_or_qmark (c : ascii) : bool :=
  is_digit c || Ascii.eqb c "?".

(** [str.lower] on one character. *)
Definition lower_char (c : ascii) : ascii :=
  let n := N_of_ascii c in
  if (((65 <=? n) && (n <=? 90))
      || ((192 <=? n) && (n <=? 222) && negb (n =? 215)))%N
  then ascii_of_N (n + 32) else c.

Fixpoint lower (s : string) : string :=
  match s with
  | "" => ""
  | String c s' => String (lower_char c) (lower s')
  end.

Fixpoint drop_while (p : ascii → bool) (s : string) : string :=
  match s with
  | "" => ""
  | String c s' => if p c then drop_while p s' else s
  end.

Fixpoint take_while (p : ascii → bool) (s : string) : string :=
  match s with
  | "" => ""
  | String c s' => if p c then String c (take_while p s') else ""
  end.

(** Drop the characters satisfying [p] at the end of [s]. *)
Fixpoint drop_end (p : ascii → bool) (s : string) : string :=
  match s with
  | "" => ""
  | String c s' =>
      match drop_end p s' with
      | "" => if p c then "" else String c ""
      | r => String c r
      end
  end.

(** [s.strip(chars)] with the set of characters given as a predicate. *)
Definition strip_by (p : ascii → bool) (s : string) : string :=
  drop_end p (drop_while p s).

(** [s.strip()] *)
Definition strip (s : string) : string := strip_by is_space s.

(** [s.startswith(pre)] *)
Definition startswith (pre s : string) : bool := String.prefix pre s.

(** [sub in s] *)
Fixpoint contains (sub s : string) : bool :=
  String.prefix sub s ||
  match s with
  | "" => false
  | String _ s' => contains sub s'
  end.

(** [s.split(sep)] for a separator of one character. *)
Fixpoint split (sep : ascii) (s : string) : list string :=
  match s with
  | "" => [""]
  | String c s' =>
      if Ascii.eqb c sep then "" :: split sep s'
      else match split sep s' with
           | p :: ps => String c p :: ps
           | [] => [String c ""]
           end
  end.

Fixpoint filter_chars (p : ascii → bool) (s : string) : string :=
  match s with
  | "" => ""
  | String c s' => if p c then String c (filter_chars p s') else filter_chars p s'
  end.

Fixpoint all_chars (p : ascii → bool) (s : string) : bool :=
  match s with
  | "" => true
  | String c s' => p c && all_chars p s'
  end.

(** [re.sub(r"[^0-9a-zA-Z]+", "_", s)]: [in_run] tells that the run of
    characters being replaced has already produced its underscore. *)
Fixpoint sub_non_alnum (in_run : bool) (s : string) : string :=
  match s with
  | "" => ""
  | String c s' =>
      if is_alnum c then String c (sub_non_alnum false s')
      else if in_run then sub_non_alnum true s'
      else String "_" (sub_non_alnum true s')
  end.

(** [re.sub(r"\D", "", s)] *)
Definition remove_non_digits (s : string) : string := filter_chars is_digit s.

(** The value of a string of decimal digits, most significant first. *)
Fixpoint digits_value (acc : Z) (s : string) : Z :=
  match s with
  | "" => acc
  | String c s' => digits_value (10 * acc + (Z.of_N (N_of_ascii c) - 48)) s'
  end.

(** [int(s)] for a text without blanks, sign or underscore, which is what
    the captures of the regular expressions below are: the digits' value,
    [ValueError] when the text is empty or has another character.  The
    interpreter's limit on the number of digits of such a text (4300 unless
    configured otherwise) is not modelled. *)
Definition int (s : string) : result Z :=
  match s with
  | "" => Raise ValueError
  | _ => if all_chars is_digit s then Ok (digits_value 0 s) else Raise ValueError
  end.

(** [s[i:j]] for [0 <= i <= j] and [s[-n:]]. *)
Definition slice (i j : nat) (s : string) : string := substring i (j - i) s.
Definition last_chars (n : nat) (s : string) : string :=
  substring (String.length s - n) n s.

(** [str(n)] of an integer. *)
Definition str_int (n : Z) : string := NilZero.string_of_int (Z.to_int n).

(** The format [{n:02d}]: at least two characters, padded with a zero. *)
Definition format_02d (n : Z) : string :=
  let s := str_int n in
  if (String.length s <? 2)%nat then "0" +:+ s else s.

(** [re.search(r"(\d+)", s)]: the capture of the leftmost match. *)
Definition search_digits (s : string) : option string :=
  match take_while is_digit (drop_while (λ c, negb (is_digit c)) s) with
  | "" => None
  | d => Some d
  end.

(** A literal of the pattern against the start of the text, under
    [re.IGNORECASE]; the literal is in lower case.  The rest of the text
    after the literal on success. *)
Fixpoint match_literal_ci (lit s : string) : option string :=
  match lit, s with
  | "", _ => Some s
  | String a lit', String c s' =>
      if Ascii.eqb (lower_char c) a then match_literal_ci lit' s' else None
  | String _ _, "" => None
  end.

(** The pattern [label\s*([0-9?]+)] anchored at the start of the text: the
    capture.  Blanks and the capture's class are disjoint, so the greedy
    [\s*] never gives a character back. *)
Definition match_labelled (label s : string) : option string :=
  match match_literal_ci label s with
  | None => None
  | Some rest =>
      match take_while is_digit_or_qmark (drop_while is_space rest) with
      | "" => None
      | g => Some g
      end
  end.

(** [re.search(label + r"\s*([0-9?]+)", s, re.IGNORECASE)]: the capture
    of the leftmost match. *)
Fixpoint search_labelled (label s : string) : option string :=
  match match_labelled label s with
  | Some g => Some g
  | None =>
      match s with
      | "" => None
      | String _ s' => search_labelled label s'
      end
  end.

End Py.

(** ** The column names: [normalize_columns], one header *)

(** The body of the loop of [normalize_columns]: the name [col_map[col]]
    of the header [col]. *)
Definition canonical_name (col : string) : string :=
  let col_clean := Py.lower (Py.strip col) in
  if Py.startswith "aboard" col_clean then "aboard"
  else if Py.contains "type" col_clean then "aircraft_type"
  else if Py.startswith "cn" col_clean then "cn_ln"
  else if String.eqb col_clean "date" then "date"
  else if String.eqb col_clean "detail_url" then "detail_url"
  else if Py.contains "fatalit" col_clean then "fatalities"
  else if Py.contains "flight" col_clean then "flight_no"
  else if String.eqb col_clean "ground" || String.eqb col_clean "ground_fatalities"
       then "ground_fatalities"
  else if String.eqb col_clean "location" then "location"
  else if Py.contains "operator" col_clean then "operator"
  else if Py.contains "registr" col_clean then "registration"
  else if String.eqb col_clean "route" then "route"
  else if String.eqb col_clean "summary" then "summary"
  else if String.eqb col_clean "time" then "time"
  else if Py.contains "year_page_url" col_clean then "year_page_url"
  else
    let tmp := Py.strip_by (Ascii.eqb "_") (Py.sub_non_alnum false col_clean) in
    if String.eqb tmp "" then col_clean else tmp.

(** A raw header goes through both renamings of [normalize_columns]: the
    first strips it, the second looks the stripped header up in [col_map]. *)
Definition normalize_header (c : string) : string :=
  canonical_name (Py.strip c).

(** ** The field parsers *)

Definition triple (A : Type) : Type := option A * option A * option A.

(** The conversion of one capture, [None] for the capture ["?"]. *)
Definition count_of_capture (m : option string) : result (option Z) :=
  match m with
  | Some g => if String.eqb g "?" then Ok None else Some <$> Py.int g
  | None => Ok None
  end.

Definition parse_fatalities (text : option string) : result (triple Z) :=
  match text with
  | None => Ok (None, None, None)
  | Some s =>
      total ← match Py.search_digits s with
              | Some d => Some <$> Py.int d
              | None => Ok None
              end;
      pax ← count_of_capture (Py.search_labelled "passengers:" s);
      crew ← count_of_capture (Py.search_labelled "crew:" s);
      Ok (total, pax, crew)
  end.

(** The list of the comma-free branch and the set of the two-part branch. *)
Definition country_substrings : list string :=
  ["Germany"; "France"; "Belgium"; "Italy"; "England"].

Definition known_countries : gset string :=
  {[ "England"; "Germany"; "France"; "Belgium"; "Italy" ]}.

Definition split_location (loc : option string) : result (triple string) :=
  match loc with
  | None => Ok (None, None, None)
  | Some l =>
      let s := Py.strip l in
      if negb (Py.contains "," s) then
        if existsb (λ ctry, Py.contains ctry s) country_substrings
        then Ok (None, None, Some s)
        else Ok (Some s, None, None)
      else
        let parts := filter (λ p, p ≠ "") (Py.strip <$> Py.split "," s) in
        if (length parts =? 1)%nat then
          p0 ← getitem parts 0; Ok (Some p0, None, None)
        else if (length parts =? 2)%nat then
          city_region ← getitem parts 0;
          last ← getitem parts 1;
          if bool_decide (last ∈ known_countries)
          then Ok (Some city_region, None, Some last)
          else Ok (Some city_region, Some last, None)
        else
          city_region ← getitem parts 0;
          state ← getitem parts 1;
          country ← getitem_last parts;
          Ok (Some city_region, Some state, Some country)
  end.

Definition _parse_time (t : option string) : result (option string) :=
  match t with
  | None => Ok None
  | Some t =>
      let s := Py.strip t in
      if String.eqb s "?" || String.eqb s "" then Ok None
      else
        let s := Py.remove_non_digits s in
        if String.eqb s "" then Ok None
        else if (String.length s <=? 2)%nat then Ok None
        else
          let s := if (String.length s =? 3)%nat then "0" +:+ s
                   else if (4 <? String.length s)%nat then Py.last_chars 4 s
                   else s in
          hh ← Py.int (Py.slice 0 2 s);
          mm ← Py.int (Py.slice 2 4 s);
          if ((23 <? hh) || (59 <? mm))%Z then Ok None
          else Ok (Some (Py.format_02d hh +:+ ":" +:+ Py.format_02d mm))
  end.

(** ** Tables *)

(** What pandas' converters are to this development: the scalars they
    produce (numbers, timestamps), how those print, and [pd.to_numeric] and
    [pd.to_datetime] with [errors="coerce"] as functions from a column to a
    column of the same length.  Nothing else about them is used, so every
    statement below holds for whatever the converters compute. *)
Inductive cell (scalar : Type) :=
  | Missing
  | Str (s : string)
  | Int (n : Z)
  | Scalar (x : scalar).
Arguments Missing {scalar}.
Arguments Str {scalar} s.
Arguments Int {scalar} n.
Arguments Scalar {scalar} x.

Record Converters := {
  scalar : Type;
  str_scalar : scalar → string;
  to_numeric : list (cell scalar) → list (cell scalar);
  to_numeric_length : ∀ v, length (to_numeric v) = length v;
  to_datetime : list (cell scalar) → list (cell scalar);
  to_datetime_length : ∀ v, length (to_datetime v) = length v;
}.

Section Frames.

Context (P : Converters).

Abbreviation value := (cell (scalar P)).
Abbreviation column := (list (cell (scalar P))).

(** A [DataFrame]: the length of its index and its columns in order, each
    with its label.  Labels may repeat. *)
Record DataFrame := {
  nrows : nat;
  columns : list (string * column);
}.

Definition labels (df : DataFrame) : list string := (columns df).*1.

(** [pd.isna(x)] and [str(x)] together: [None] for a missing value, the
    text of the value otherwise. *)
Definition cell_text (x : value) : option string :=
  match x with
  | Missing => None
  | Str s => Some s
  | Int n => Some (Py.str_int n)
  | Scalar x => Some (str_scalar P x)
  end.

Definition cell_of_text (o : option string) : value :=
  match o with
  | Some s => Str s
  | None => Missing
  end.

Definition cell_of_int (o : option Z) : value :=
  match o with
  | Some n => Int n
  | None => Missing
  end.

(** [df.rename(columns=m)]: every label that is a key of [m] is replaced,
    the others and all the values stay; nothing is merged or dropped. *)
Definition rename (m : gmap string string) (df : DataFrame) : DataFrame :=
  {| nrows := nrows df;
     columns := prod_map (λ c, default c (m !! c)) id <$> columns df |}.

(** The dictionary [{c: f(c) for c in cols}], filled in the order of [cols]. *)
Definition dict_of (f : string → string) (cols : list string) : gmap string string :=
  foldl (λ m c, <[c := f c]> m) ∅ cols.

Definition normalize_columns (df : DataFrame) : DataFrame :=
  let df := rename (dict_of Py.strip (labels df)) df in
  let col_map := dict_of canonical_name (labels df) in
  rename col_map df.

(** [name in df.columns] *)
Definition has_column (name : string) (df : DataFrame) : bool :=
  bool_decide (name ∈ labels df).

(** [df[name]] where the code needs a [Series].  A label present once
    selects its column.  A label present several times selects a sub-frame,
    and what the code does with it raises [e]: [pd.to_datetime] and the
    assignment to one column a [ValueError], [apply] with a scalar parser a
    [ValueError] from the truth value of a [Series], [pd.to_numeric] a
    [TypeError].  This is so on every table that has a row.  On a table
    without rows pandas lets the sub-frame of [time] or of [location]
    through when each target label is repeated as often as the source
    label; the model raises there as well, so a statement that the pass
    raises on a repeated [time] or [location] is made of tables with a row
    only.  The [KeyError] of an absent
    label is not reached: every use is under [has_column]. *)
Definition series (e : exn) (name : string) (df : DataFrame) : result column :=
  match filter (λ c, c.1 = name) (columns df) with
  | [] => Raise KeyError
  | [c] => Ok c.2
  | _ => Raise e
  end.

(** The values [df[name] = v] gives the [k] columns labelled [name] of a
    table of [n] rows, for a [Series] [v].  A single column takes [v].  So
    does each of several columns when [k] is not the length of [v]:
    [DataFrame._set_item] tiles the values.  When [k >= 2] is the length of
    [v], [DataFrame.__setitem__] takes its branch for a duplicated column
    and sets the [j]-th column to the [j]-th value of [v], in every row. *)
Definition assigned_values (v : column) (n k : nat) : list column :=
  if ((1 <? k) && (k =? length v))%nat
  then (λ j, replicate n (default Missing (v !! j))) <$> seq 0 k
  else replicate k v.

(** The columns labelled [name] take the values [vals], in their order. *)
Fixpoint fill (name : string) (vals : list column) (cols : list (string * column))
    : list (string * column) :=
  match cols with
  | [] => []
  | c :: cols' =>
      if decide (c.1 = name)
      then match vals with
           | x :: vals' => (c.1, x) :: fill name vals' cols'
           | [] => c :: fill name [] cols'
           end
      else c :: fill name vals cols'
  end.

(** [df[name] = v] for a [Series] [v] on the index of [df]: the columns
    labelled [name] take their [assigned_values]; without such a column,
    one is appended with the values [v]. *)
Definition set_column (name : string) (v : column) (df : DataFrame) : DataFrame :=
  {| nrows := nrows df;
     columns :=
       if has_column name df
       then fill name
              (assigned_values v (nrows df)
                 (length (filter (λ c, c.1 = name) (columns df))))
              (columns df)
       else columns df ++ [(name, v)] |}.

Definition parse_date_col (df : DataFrame) : result DataFrame :=
  if has_column "date" df then
    date ← series ValueError "date" df;
    Ok (set_column "date_parsed" (to_datetime P date) df)
  else Ok df.

Definition parse_time_col (df : DataFrame) : result DataFrame :=
  if negb (has_column "time" df) then Ok df
  else
    time ← series ValueError "time" df;
    let df := set_column "time_raw" time df in
    time ← series ValueError "time" df;
    hhmm ← apply_rows (λ t, _parse_time (cell_text t)) time;
    Ok (set_column "time_hhmm" (cell_of_text <$> hhmm) df).

(** [df[name] = pd.to_numeric(df[name], errors="coerce")] *)
Definition coerce_numeric (name : string) (df : DataFrame) : result DataFrame :=
  v ← series TypeError name df;
  Ok (set_column name (to_numeric P v) df).

(** The fatalities block of [clean_dataset]. *)
Definition split_fatalities (df : DataFrame) : result DataFrame :=
  if has_column "fatalities" df then
    fatalities ← series ValueError "fatalities" df;
    totals ← apply_rows (λ x, parse_fatalities (cell_text x)) fatalities;
    let df := set_column "fatalities_total" ((λ x, cell_of_int x.1.1) <$> totals) df in
    let df := set_column "fatalities_passengers" ((λ x, cell_of_int x.1.2) <$> totals) df in
    let df := set_column "fatalities_crew" ((λ x, cell_of_int x.2) <$> totals) df in
    df ← coerce_numeric "fatalities_total" df;
    df ← coerce_numeric "fatalities_passengers" df;
    coerce_numeric "fatalities_crew" df
  else Ok df.

(** The location block of [clean_dataset]. *)
Definition split_locations (df : DataFrame) : result DataFrame :=
  if has_column "location" df then
    location ← series ValueError "location" df;
    loc_split ← apply_rows (λ x, split_location (cell_text x)) location;
    let df := set_column "location_city" ((λ x, cell_of_text x.1.1) <$> loc_split) df in
    let df := set_column "location_state" ((λ x, cell_of_text x.1.2) <$> loc_split) df in
    Ok (set_column "location_country" ((λ x, cell_of_text x.2) <$> loc_split) df)
  else Ok df.

(** The ground fatalities block of [clean_dataset]. *)
Definition ground_numeric (df : DataFrame) : result DataFrame :=
  if has_column "ground_fatalities" df
  then coerce_numeric "ground_fatalities" df
  else Ok df.

Definition clean_dataset (df : DataFrame) : result DataFrame :=
  let df := normalize_columns df in
  df ← parse_date_col df;
  df ← parse_time_col df;
  df ← split_fatalities df;
  df ← split_locations df;
  ground_numeric df.

End Frames.

Arguments nrows {P} _.
Arguments columns {P} _.
Arguments labels {P} df.
Arguments rename {P} m df.
Arguments normalize_columns {P} df.
Arguments has_column {P} name df.
Arguments series {P} e name df.
Arguments assigned_values {P} v n k.
Arguments fill {P} name vals cols.
Arguments set_column {P} name v df.
Arguments parse_date_col {P} df.
Arguments parse_time_col {P} df.
Arguments coerce_numeric {P} name df.
Arguments split_fatalities {P} df.
Arguments split_locations {P} df.
Arguments ground_numeric {P} df.
Arguments clean_dataset {P} df.

(** An instance of the converters to run tables with: whole numbers
    written in digits are numeric, any other text is not; no text is a
    date.  Every statement quantified over [Converters] holds of pandas'
    own; this one gives closed examples. *)
Definition digits_numeric (x : cell Empty_set) : cell Empty_set :=
  match x with
  | Str s => match Py.int s with Ok n => Int n | Raise _ => Missing end
  | x => x
  end.

Definition digits_only : Converters := {|
  scalar := Empty_set;
  str_scalar := λ x, match x with end;
  to_numeric := fmap digits_numeric;
  to_numeric_length := length_fmap digits_numeric;
  to_datetime := fmap (λ _, Missing);
  to_datetime_length := length_fmap (λ _, Missing);
|}.

(** A table as read from the file: every value a text. *)
Definition raw_table {P : Converters} (header : list string) (rows : list (list string)) : DataFrame P :=
  {| nrows := length rows;
     columns := imap (λ i h, (h, (λ r, Str (default "" (r !! i))) <$> rows)) header |}.

(** A table with every source column, and what the pass makes of it. *)
Definition sample_table : DataFrame digits_only :=
  raw_table
    ["Date"; "Time"; "Ground"; "Fatalities"; "Location"]
    [["1/1/2000"; "700"; "3"; "22   (passengers:?  crew:?)"; "Near Paris, France"];
     ["?"; "?"; "?"; "1    (passengers:1  crew:0)"; "Moscow"]].

Definition sample_table_clean : DataFrame digits_only :=
  {| nrows := 2;
     columns :=
       [("date", [Str "1/1/2000"; Str "?"]); ("time", [Str "700"; Str "?"]);
        ("ground_fatalities", [Int 3; Missing]);
        ("fatalities",
         [Str "22   (passengers:?  crew:?)"; Str "1    (passengers:1  crew:0)"]);
        ("location", [Str "Near Paris, France"; Str "Moscow"]);
        ("date_parsed", [Missing; Missing]); ("time_raw", [Str "700"; Str "?"]);
        ("time_hhmm", [Str "07:00"; Missing]);
        ("fatalities_total", [Int 22; Int 1]);
        ("fatalities_passengers", [Missing; Int 1]);
        ("fatalities_crew", [Missing; Int 0]);
        ("location_city", [Str "Near Paris"; Str "Moscow"]);
        ("location_state", [Missing; Missing]);
        ("location_country", [Str "France"; Missing])] |}.

(** A table without fatalities, and a table with them, each with what the
    pass makes of it. *)
Definition times_table : DataFrame digits_only :=
  raw_table ["Time"; "Location"] [["700"; "Moscow"]].

Definition times_table_clean : DataFrame digits_only :=
  {| nrows := 1;
     columns :=
       [("time", [Str "700"]); ("location", [Str "Moscow"]);
        ("time_raw", [Str "700"]); ("time_hhmm", [Str "07:00"]);
        ("location_city", [Str "Moscow"]); ("location_state", [Missing]);
        ("location_country", [Missing])] |}.

Definition fatalities_table : DataFrame digits_only :=
  raw_table ["Fatalities"] [["1    (passengers:1  crew:0)"]].

Definition fatalities_table_clean : DataFrame digits_only :=
  {| nrows := 1;
     columns :=
       [("fatalities", [Str "1    (passengers:1  crew:0)"]);
        ("fatalities_total", [Int 1]); ("fatalities_passengers", [Int 1]);
        ("fatalities_crew", [Int 0])] |}.

(** A table with ground fatalities and no fatalities, what the pass makes
    of it, and what the pass makes of that: the second pass names the
    column [ground_fatalities] [fatalities] and counts its numbers. *)
Definition ground_table : DataFrame digits_only :=
  raw_table
    ["Date"; "Time"; "Ground"; "Location"]
    [["1/1/2000"; "700"; "3"; "Near Paris, France"];
     ["?"; "?"; "?"; "Moscow"]].

Definition ground_table_clean : DataFrame digits_only :=
  {| nrows := 2;
     columns :=
       [("date", [Str "1/1/2000"; Str "?"]); ("time", [Str "700"; Str "?"]);
        ("ground_fatalities", [Int 3; Missing]);
        ("location", [Str "Near Paris, France"; Str "Moscow"]);
        ("date_parsed", [Missing; Missing]); ("time_raw", [Str "700"; Str "?"]);
        ("time_hhmm", [Str "07:00"; Missing]);
        ("location_city", [Str "Near Paris"; Str "Moscow"]);
        ("location_state", [Missing; Missing]);
        ("location_country", [Str "France"; Missing])] |}.

Definition ground_table_again : DataFrame digits_only :=
  {| nrows := 2;
     columns :=
       [("date", [Str "1/1/2000"; Str "?"]); ("time", [Str "700"; Str "?"]);
        ("fatalities", [Int 3; Missing]);
        ("location", [Str "Near Paris, France"; Str "Moscow"]);
        ("date_parsed", [Missing; Missing]); ("time_raw", [Str "700"; Str "?"]);
        ("time_hhmm", [Str "07:00"; Missing]);
        ("location_city", [Str "Near Paris"; Str "Moscow"]);
        ("location_state", [Missing; Missing]);
        ("location_country", [Str "France"; Missing]);
        ("fatalities_total", [Int 3; Missing]);
        ("fatalities_passengers", [Missing; Missing]);
        ("fatalities_crew", [Missing; Missing])] |}.

(** A table with two headers named [ground], and what the pass makes of
    it.  The second pass names both columns [ground_fatalities]. *)
Definition grounds_table : DataFrame digits_only :=
  raw_table ["Ground!"; "Ground?"] [["1"; "2"]].

Definition grounds_table_clean : DataFrame digits_only :=
  {| nrows := 1;
     columns := [("ground", [Str "1"]); ("ground", [Str "2"])] |}.

(** A table of two rows with two columns whose headers are both named
    [time_raw], and what the pass makes of it: the first of the two columns
    takes the first time in both rows, the second the second. *)
Definition repeated_table : DataFrame digits_only :=
  raw_table
    ["Time"; "Time Raw"; "time_raw"]
    [["700"; "a"; "b"]; ["1315"; "c"; "d"]].

Definition repeated_table_clean : DataFrame digits_only :=
  {| nrows := 2;
     columns :=
       [("time", [Str "700"; Str "1315"]);
        ("time_raw", [Str "700"; Str "700"]);
        ("time_raw", [Str "1315"; Str "1315"]);
        ("time_hhmm", [Str "07:00"; Str "13:15"])] |}.

(** ** The specification's wording, to compare the code with *)

(** TimeParser, step by step as the specification gives it. *)
Definition digit_char (d : Z) : ascii := ascii_of_N (48 + Z.to_N d).

Definition two_digits (n : Z) : string :=
  String (digit_char (n / 10)) (String (digit_char (n mod 10)) "").

Definition TimeParser (t : option string) : option string :=
  match t with
  | None => None
  | Some s =>
      if String.eqb s "" || String.eqb s "?" then None
      else
        let d := Py.filter_chars Py.is_digit s in
        if (String.length d <=? 2)%nat then None
        else
          let d := if (String.length d =? 3)%nat then String "0" d
                   else if (4 <? String.length d)%nat
                        then substring (String.length d - 4) 4 d
                        else d in
          let hh := Py.digits_value 0 (substring 0 2 d) in
          let mm := Py.digits_value 0 (substring 2 2 d) in
          if ((23 <? hh) || (59 <? mm))%Z then None
          else Some (two_digits hh +:+ ":" +:+ two_digits mm)
  end.

(** LocationParser's parts: split on commas, trim each part, drop the empty
    parts; and the known-country set. *)
Definition location_parts (l : string) : list string :=
  filter (λ p, p ≠ "") (Py.strip <$> Py.split "," l).

Definition known_country_names : list string :=
  ["England"; "Germany"; "France"; "Belgium"; "Italy"].

(** ColumnNormalizer's rules 1 to 15, each a predicate on the trimmed,
    lower-cased header and the canonical name it gives. *)
Definition column_rules : list ((string → bool) * string) :=
  [ (Py.startswith "aboard", "aboard");
    (Py.contains "type", "aircraft_type");
    (Py.startswith "cn", "cn_ln");
    (λ h, String.eqb h "date", "date");
    (λ h, String.eqb h "detail_url", "detail_url");
    (Py.contains "fatalit", "fatalities");
    (Py.contains "flight", "flight_no");
    (λ h, String.eqb h "ground" || String.eqb h "ground_fatalities",
      "ground_fatalities");
    (λ h, String.eqb h "location", "location");
    (Py.contains "operator", "operator");
    (Py.contains "registr", "registration");
    (λ h, String.eqb h "route", "route");
    (λ h, String.eqb h "summary", "summary");
    (λ h, String.eqb h "time", "time");
    (Py.contains "year_page_url", "year_page_url") ].

(** Rule 16, the fallback. *)
Definition fallback_name (h : string) : string :=
  let tmp := Py.strip_by (Ascii.eqb "_") (Py.sub_non_alnum false h) in
  if String.eqb tmp "" then h else tmp.

(** The name the first rule that matches gives. *)
Fixpoint first_match (rules : list ((string → bool) * string)) (h : string) : string :=
  match rules with
  | [] => fallback_name h
  | (p, name) :: rules' => if p h then name else first_match rules' h
  end.

(** The columns the cleaning pass derives. *)
Definition derived_columns : list string :=
  [ "date_parsed"; "time_raw"; "time_hhmm"; "fatalities_total";
    "fatalities_passengers"; "fatalities_crew"; "location_city";
    "location_state"; "location_country" ].

(** ** Notions the properties of strings are stated with *)

(** The character [c] occurs in [s]. *)
Fixpoint has_char (c : ascii) (s : string) : bool :=
  match s with
  | "" => false
  | String a s' => Ascii.eqb a c || has_char c s'
  end.

(** The text begins, and ends, with a character that is not a blank. *)
Definition starts_solid (c : string) : bool :=
  match c with
  | String a _ => negb (Py.is_space a)
  | "" => false
  end.

Fixpoint ends_solid (c : string) : bool :=
  match c with
  | "" => false
  | String a "" => negb (Py.is_space a)
  | String _ c' => ends_solid c'
  end.



(** A blank or a comma. *)
Definition blank_or_comma (c : ascii) : bool :=
  Py.is_space c || Ascii.eqb c ",".

(** The clock time a string of digits stands for: the steps of
    [_parse_time] after the characters that are not digits are removed. *)
Definition clock_of_digits (d : string) : option string :=
  if (String.length d <=? 2)%nat then None
  else
    let d := if (String.length d =? 3)%nat then String "0" d
             else if (4 <? String.length d)%nat
                  then substring (String.length d - 4) 4 d
                  else d in
    let hh := Py.digits_value 0 (substring 0 2 d) in
    let mm := Py.digits_value 0 (substring 2 2 d) in
    if ((23 <? hh) || (59 <? mm))%Z then None
    else Some (two_digits hh +:+ ":" +:+ two_digits mm).

(** A character of a snake-case name: a digit, a lower-case letter from
    [a] to [z], or an underscore. *)
Definition snake_char (c : ascii) : bool :=
  let n := N_of_ascii c in
  (((48 <=? n) && (n <=? 57)) || ((97 <=? n) && (n <=? 122)) || (n =? 95))%N.

(** ** Notions the properties of tables are stated with *)

Section FrameNotions.

Context {P : Converters}.

(** Every column has one value per row. *)
Definition well_formed (df : DataFrame P) : Prop :=
  ∀ c, c ∈ columns df → length c.2 = nrows df.

(** The label [name] is present, and every column under it holds [v]. *)
Definition settled (name : string) (v : list (cell (scalar P))) (df : DataFrame P) : Prop :=
  name ∈ labels df ∧ ∀ c, c ∈ columns df → c.1 = name → c.2 = v.

(** The columns labelled [name], of which there is one at least, hold what
    the assignment [df[name] = v] gives them. *)
Definition assigned (name : string) (v : list (cell (scalar P))) (df : DataFrame P) : Prop :=
  let cs := filter (λ c, c.1 = name) (columns df) in
  cs ≠ [] ∧ cs.*2 = assigned_values v (nrows df) (length cs).

(** [df'] comes from [df] by assignments [df[name] = v] to labels in
    [targets], each of one value per row. *)
Inductive writes (targets : list string) : DataFrame P → DataFrame P → Prop :=
  | writes_refl df : writes targets df df
  | writes_set df df' name v :
      writes targets df df' → name ∈ targets →
      (well_formed df' → length v = nrows df') →
      writes targets df (set_column name v df').

(** At most one column is labelled [name]. *)
Definition at_most_once (name : string) (df : DataFrame P) : Prop :=
  (length (filter (λ c, c.1 = name) (columns df)) ≤ 1)%nat.

(** The columns the pass parses. *)
Definition source_columns : list string :=
  [ "date"; "time"; "fatalities"; "location"; "ground_fatalities" ].

(** Each derived column with the column it is derived from. *)
Definition derived_from : list (string * string) :=
  [ ("date_parsed", "date"); ("time_raw", "time"); ("time_hhmm", "time");
    ("fatalities_total", "fatalities"); ("fatalities_passengers", "fatalities");
    ("fatalities_crew", "fatalities"); ("location_city", "location");
    ("location_state", "location"); ("location_country", "location") ].

(** The columns the first, second and fourth block read and write.  In a
    cleaned table these names are on the columns [normalize_columns] gives
    them to, and on no other. *)
Definition kept_columns : list string :=
  [ "date"; "time"; "location"; "date_parsed"; "time_raw"; "time_hhmm";
    "location_city"; "location_state"; "location_country" ].


(** The table is as [parse_date_col] leaves it: [date], if present, is one
    column, and its dates are assigned to [date_parsed]. *)
Definition date_done (df : DataFrame P) : Prop :=
  has_column "date" df = true →
  ∃ v, series ValueError "date" df = Ok v ∧
       assigned "date_parsed" (to_datetime P v) df.

(** The same for [parse_time_col]. *)
Definition time_done (df : DataFrame P) : Prop :=
  has_column "time" df = true →
  ∃ v hhmm,
    series ValueError "time" df = Ok v ∧
    apply_rows (λ t, _parse_time (cell_text P t)) v = Ok hhmm ∧
    assigned "time_raw" v df ∧
    assigned "time_hhmm" (cell_of_text P <$> hhmm) df.

(** The same for the location block. *)
Definition location_done (df : DataFrame P) : Prop :=
  has_column "location" df = true →
  ∃ v loc_split,
    series ValueError "location" df = Ok v ∧
    apply_rows (λ x, split_location (cell_text P x)) v = Ok loc_split ∧
    assigned "location_city" ((λ x, cell_of_text P x.1.1) <$> loc_split) df ∧
    assigned "location_state" ((λ x, cell_of_text P x.1.2) <$> loc_split) df ∧
    assigned "location_country" ((λ x, cell_of_text P x.2) <$> loc_split) df.

(** The same for the fatalities block: the numeric coercion of each of the
    three counts is assigned to its column. *)
Definition fatalities_done (df : DataFrame P) : Prop :=
  has_column "fatalities" df = true →
  ∃ v totals,
    series ValueError "fatalities" df = Ok v ∧
    apply_rows (λ x, parse_fatalities (cell_text P x)) v = Ok totals ∧
    assigned "fatalities_total"
      (to_numeric P ((λ x, cell_of_int P x.1.1) <$> totals)) df ∧
    assigned "fatalities_passengers"
      (to_numeric P ((λ x, cell_of_int P x.1.2) <$> totals)) df ∧
    assigned "fatalities_crew"
      (to_numeric P ((λ x, cell_of_int P x.2) <$> totals)) df.

End FrameNotions.

(** * Properties *)

(** ** Characters and strings *)

Module PyFacts.
Import Py.

Ltac by_cases_on_char c :=
  destruct c as [[] [] [] [] [] [] [] []]; vm_compute; congruence.

Lemma space_not_digit c : is_space c = true → is_digit c = false.
Proof. by_cases_on_char c. Qed.

Lemma space_lower_char c : is_space (lower_char c) = is_space c.
Proof. by_cases_on_char c. Qed.

Lemma space_not_comma c : is_space c = true → Ascii.eqb c "," = false.
Proof. by_cases_on_char c. Qed.

Lemma drop_while_app_all p ws s :
  all_chars p ws = true → drop_while p (ws +:+ s) = drop_while p s.
Proof.
  induction ws as [|c ws IH]; simpl; [done|].
  destruct (p c); simpl; [auto | discriminate].
Qed.

Lemma drop_end_all p ws : all_chars p ws = true → drop_end p ws = "".
Proof.
  induction ws as [|c ws IH]; simpl; [done|].
  destruct (p c); simpl; [|discriminate].
  intros H. by rewrite IH.
Qed.

Lemma drop_end_empty_all p s : drop_end p s = "" → all_chars p s = true.
Proof.
  induction s as [|c s IH]; simpl; [done|].
  destruct (drop_end p s); [|discriminate].
  destruct (p c); [auto | discriminate].
Qed.

Lemma drop_end_app_all p s ws :
  all_chars p ws = true → drop_end p (s +:+ ws) = drop_end p s.
Proof.
  intros H. induction s as [|c s IH]; simpl.
  - by apply drop_end_all.
  - by rewrite IH.
Qed.

(** Stripping the two ends in either order. *)
Lemma drop_end_drop_while p s :
  drop_end p (drop_while p s) = drop_while p (drop_end p s).
Proof.
  induction s as [|c s IH]; simpl; [done|].
  destruct (p c) eqn:Hc.
  - rewrite IH. destruct (drop_end p s) eqn:Hs; simpl; [done|].
    by rewrite Hc.
  - simpl. destruct (drop_end p s); simpl; by rewrite Hc.
Qed.

Lemma strip_by_app_all p ws1 s ws2 :
  all_chars p ws1 = true → all_chars p ws2 = true →
  strip_by p (ws1 +:+ s +:+ ws2) = strip_by p s.
Proof.
  intros H1 H2. unfold strip_by.
  rewrite drop_while_app_all by done.
  rewrite !drop_end_drop_while. by rewrite drop_end_app_all.
Qed.

Lemma drop_while_lower s :
  drop_while is_space (lower s) = lower (drop_while is_space s).
Proof.
  induction s as [|c s IH]; simpl; [done|].
  rewrite space_lower_char. by destruct (is_space c).
Qed.

Lemma drop_end_lower s :
  drop_end is_space (lower s) = lower (drop_end is_space s).
Proof.
  induction s as [|c s IH]; simpl; [done|].
  rewrite IH, space_lower_char.
  destruct (drop_end is_space s); simpl; [|done].
  by destruct (is_space c).
Qed.

Lemma strip_lower s : strip (lower s) = lower (strip s).
Proof. unfold strip, strip_by. by rewrite drop_while_lower, drop_end_lower. Qed.

Lemma filter_chars_drop_while p q s :
  (∀ c, q c = true → p c = false) →
  filter_chars p (drop_while q s) = filter_chars p s.
Proof.
  intros Hpq. induction s as [|c s IH]; simpl; [done|].
  destruct (q c) eqn:Hc; [|done]. by rewrite (Hpq c Hc).
Qed.

Lemma filter_chars_drop_end p q s :
  (∀ c, q c = true → p c = false) →
  filter_chars p (drop_end q s) = filter_chars p s.
Proof.
  intros Hpq. induction s as [|c s IH]; simpl; [done|].
  rewrite <- IH. destruct (drop_end q s) eqn:Hs; simpl; [|done].
  destruct (q c) eqn:Hc; simpl.
  - by rewrite (Hpq c Hc).
  - done.
Qed.

Lemma remove_non_digits_strip s :
  remove_non_digits (strip s) = remove_non_digits s.
Proof.
  unfold remove_non_digits, strip, strip_by.
  rewrite filter_chars_drop_end, filter_chars_drop_while;
    auto using space_not_digit.
Qed.

Lemma all_chars_filter p s : all_chars p (filter_chars p s) = true.
Proof.
  induction s as [|c s IH]; simpl; [done|].
  destruct (p c) eqn:Hc; simpl; [by rewrite Hc|done].
Qed.

Lemma all_chars_substring p s : ∀ n m,
  all_chars p s = true → all_chars p (substring n m s) = true.
Proof.
  induction s as [|c s IH]; intros n m H; simpl.
  - by destruct n, m.
  - simpl in H. apply andb_prop in H as [Hc Hs].
    destruct n; [destruct m|]; simpl; auto.
    rewrite Hc. simpl. auto.
Qed.

Lemma length_substring (s : string) : ∀ n m : nat,
  (n + m ≤ String.length s)%nat → String.length (substring n m s) = m.
Proof.
  induction s as [|c s IH]; intros n m H; simpl in *.
  - by destruct n, m; try lia.
  - destruct n; [destruct m|]; simpl; auto.
    + rewrite IH; lia.
    + apply IH. lia.
Qed.

Lemma digits_value_nonneg s : ∀ acc,
  all_chars is_digit s = true → (0 ≤ acc)%Z → (0 ≤ digits_value acc s)%Z.
Proof.
  induction s as [|c s IH]; intros acc H Hacc; simpl in *; [done|].
  apply andb_prop in H as [Hc Hs]. apply IH; [done|].
  unfold is_digit in Hc. apply andb_prop in Hc as [Hc _].
  apply N.leb_le in Hc. lia.
Qed.

Lemma int_digits s :
  s ≠ "" → all_chars is_digit s = true → int s = Ok (digits_value 0 s).
Proof. intros Hs H. unfold int. rewrite H. by destruct s. Qed.

Lemma nonempty_of_length (s : string) n : String.length s = S n → s ≠ "".
Proof. by destruct s. Qed.

(** *** Membership of a character, stripping and splitting *)

Lemma prefix_empty s : String.prefix "" s = true.
Proof. by destruct s. Qed.

Lemma contains_has_char c s : contains (String c "") s = has_char c s.
Proof.
  induction s as [|a s IH]; simpl; [done|].
  rewrite IH, prefix_empty.
  destruct (ascii_dec c a) as [->|Hne].
  - by rewrite Ascii.eqb_refl.
  - destruct (Ascii.eqb_spec a c); [congruence|done].
Qed.

Lemma has_char_drop_while p c s :
  p c = false → has_char c (drop_while p s) = has_char c s.
Proof.
  intros Hc. induction s as [|a s IH]; simpl; [done|].
  destruct (p a) eqn:Ha; [|done].
  destruct (Ascii.eqb_spec a c); [congruence|done].
Qed.

Lemma has_char_drop_end p c s :
  p c = false → has_char c (drop_end p s) = has_char c s.
Proof.
  intros Hc. induction s as [|a s IH]; simpl; [done|].
  rewrite <- IH. destruct (drop_end p s); simpl; [|done].
  destruct (p a) eqn:Ha; simpl; [|done].
  destruct (Ascii.eqb_spec a c); [congruence|done].
Qed.

Lemma contains_comma_strip s : contains "," (strip s) = contains "," s.
Proof.
  rewrite !contains_has_char. unfold strip, strip_by.
  by rewrite has_char_drop_end, has_char_drop_while.
Qed.

Lemma split_cons sep s : ∃ p ps, split sep s = p :: ps.
Proof.
  induction s as [|a s (p & ps & IH)]; simpl; [by eauto|].
  destruct (Ascii.eqb a sep); [by eauto|]. rewrite IH. eauto.
Qed.

Lemma split_blank w :
  all_chars is_space w = true → split "," w = [w].
Proof.
  induction w as [|a w IH]; simpl; [done|]. intros H.
  apply andb_prop in H as [Ha Hw].
  by rewrite (space_not_comma a Ha), IH.
Qed.

Lemma split_drop_while s :
  drop_while is_space <$> split "," (drop_while is_space s)
  = drop_while is_space <$> split "," s.
Proof.
  induction s as [|a s IH]; simpl; [done|].
  destruct (is_space a) eqn:Ha; [|done].
  rewrite (space_not_comma a Ha), IH.
  destruct (split_cons "," s) as (p & ps & ->). simpl. by rewrite Ha.
Qed.

Lemma split_drop_end s :
  drop_end is_space <$> split "," (drop_end is_space s)
  = drop_end is_space <$> split "," s.
Proof.
  induction s as [|a s IH]; simpl; [done|].
  destruct (drop_end is_space s) as [|b r] eqn:Hr.
  - pose proof (drop_end_empty_all _ _ Hr) as Hblank.
    rewrite (split_blank s Hblank).
    destruct (Ascii.eqb_spec a ",") as [->|Hne]; simpl; rewrite ?Hr.
    + done.
    + destruct (is_space a) eqn:Ha; simpl.
      * done.
      * destruct (Ascii.eqb_spec a ","); [done|]. simpl. by rewrite Ha.
  - remember (String b r) as r0 eqn:Hr0. simpl.
    destruct (Ascii.eqb a ","); simpl; [f_equal; exact IH|].
    destruct (split_cons "," s) as (p & ps & Hs).
    destruct (split_cons "," r0) as (p' & ps' & Hs').
    rewrite Hs, Hs' in *. simpl in *.
    injection IH as Hp Hps. by rewrite Hp, Hps.
Qed.

Lemma fmap_strip (l : list string) :
  strip <$> l = drop_end is_space <$> (drop_while is_space <$> l).
Proof. by rewrite <- list_fmap_compose. Qed.

Lemma fmap_strip' (l : list string) :
  strip <$> l = drop_while is_space <$> (drop_end is_space <$> l).
Proof.
  rewrite <- list_fmap_compose. apply list_fmap_ext.
  intros _ x _. apply drop_end_drop_while.
Qed.

Lemma strip_split_strip s :
  strip <$> split "," (strip s) = strip <$> split "," s.
Proof.
  rewrite fmap_strip'. unfold strip at 1, strip_by.
  rewrite split_drop_end, <- fmap_strip', fmap_strip, split_drop_while.
  by rewrite <- fmap_strip.
Qed.

(** *** Substrings that begin and end with a character that is not a blank *)

Lemma prefix_cons c0 c' a s :
  String.prefix (String c0 c') (String a s)
  = if ascii_dec c0 a then String.prefix c' s else false.
Proof. done. Qed.

Lemma contains_cons c a s :
  contains c (String a s) = String.prefix c (String a s) || contains c s.
Proof. done. Qed.

Lemma contains_drop_while c s :
  starts_solid c = true →
  contains c (drop_while is_space s) = contains c s.
Proof.
  destruct c as [|c0 c']; [done|]. simpl. intros Hc.
  induction s as [|a s IH]; [done|]. simpl drop_while.
  destruct (is_space a) eqn:Ha; [|done].
  rewrite IH, contains_cons, prefix_cons.
  destruct (ascii_dec c0 a) as [->|]; [|done].
  by rewrite Ha in Hc.
Qed.

Lemma prefix_drop_end s : ∀ c,
  ends_solid c = true →
  String.prefix c (drop_end is_space s) = String.prefix c s.
Proof.
  induction s as [|a s IH]; intros c Hc; [done|].
  destruct c as [|c0 c']; [done|].
  rewrite prefix_cons. simpl drop_end.
  destruct c' as [|c1 c''].
  - simpl in Hc. rewrite prefix_empty.
    destruct (drop_end is_space s); [|by rewrite prefix_cons, prefix_empty].
    destruct (is_space a) eqn:Ha.
    + destruct (ascii_dec c0 a) as [->|]; [|done]. by rewrite Ha in Hc.
    + by rewrite prefix_cons, prefix_empty.
  - specialize (IH (String c1 c'') Hc).
    destruct (drop_end is_space s) as [|b r].
    + rewrite <- IH.
      destruct (is_space a); [by destruct (ascii_dec c0 a)|].
      rewrite prefix_cons. by destruct (ascii_dec c0 a).
    + by rewrite prefix_cons, IH.
Qed.

Lemma contains_drop_end c s :
  ends_solid c = true →
  contains c (drop_end is_space s) = contains c s.
Proof.
  intros Hc. induction s as [|a s IH]; [done|].
  rewrite contains_cons, <- (prefix_drop_end (String a s)), <- IH by done.
  simpl drop_end. destruct (drop_end is_space s) as [|b r].
  - destruct c as [|c0 c']; [done|].
    destruct (is_space a); simpl; by rewrite ?orb_false_r.
  - by rewrite contains_cons.
Qed.

Lemma contains_strip c s :
  starts_solid c = true → ends_solid c = true →
  contains c (strip s) = contains c s.
Proof.
  intros H1 H2. unfold strip, strip_by.
  by rewrite contains_drop_end, contains_drop_while.
Qed.

Lemma drop_while_idem p s : drop_while p (drop_while p s) = drop_while p s.
Proof.
  induction s as [|a s IH]; simpl; [done|].
  destruct (p a) eqn:Ha; [done|]. simpl. by rewrite Ha.
Qed.

Lemma drop_end_idem p s : drop_end p (drop_end p s) = drop_end p s.
Proof.
  induction s as [|a s IH]; simpl; [done|].
  destruct (drop_end p s) as [|b r] eqn:Hr.
  - destruct (p a) eqn:Ha; simpl; [done|]. by rewrite Ha.
  - remember (String b r) as r0. simpl. rewrite IH. by subst r0.
Qed.

Lemma strip_idem s : strip (strip s) = strip s.
Proof.
  unfold strip, strip_by.
  by rewrite <- (drop_end_drop_while is_space (drop_while is_space s)),
    drop_while_idem, drop_end_idem.
Qed.

End PyFacts.

(** ** TimeParser *)

Lemma format_02d_two_digits n :
  (0 ≤ n < 100)%Z → Py.format_02d n = two_digits n.
Proof.
  intros H. rewrite <- (Z2Nat.id n) by lia.
  assert (Hk : (Z.to_nat n < 100)%nat) by lia.
  generalize dependent (Z.to_nat n). clear. intros k Hk.
  do 100 (destruct k as [|k]; [reflexivity|]). lia.
Qed.

Lemma digits_value_two s :
  String.length s = 2%nat → Py.all_chars Py.is_digit s = true →
  (0 ≤ Py.digits_value 0 s < 100)%Z.
Proof.
  destruct s as [|a [|b [|]]]; try discriminate. intros _ H. simpl in *.
  apply andb_prop in H as [Ha H]. apply andb_prop in H as [Hb _].
  unfold Py.is_digit in *.
  apply andb_prop in Ha as [Ha1 Ha2]. apply andb_prop in Hb as [Hb1 Hb2].
  apply N.leb_le in Ha1, Ha2, Hb1, Hb2. lia.
Qed.

(** What the clock digits are once padded or cut: four digits. *)
Lemma clock_digits d :
  Py.all_chars Py.is_digit d = true → (2 < String.length d)%nat →
  let d4 := if (String.length d =? 3)%nat then String "0" d
            else if (4 <? String.length d)%nat
                 then substring (String.length d - 4) 4 d
                 else d in
  String.length d4 = 4%nat ∧ Py.all_chars Py.is_digit d4 = true.
Proof.
  intros Hd Hlen. simpl.
  destruct (String.length d =? 3)%nat eqn:E3.
  - apply Nat.eqb_eq in E3. simpl. by rewrite E3, Hd.
  - apply Nat.eqb_neq in E3.
    destruct (4 <? String.length d)%nat eqn:E4.
    + apply Nat.ltb_lt in E4. split.
      * apply PyFacts.length_substring. lia.
      * by apply PyFacts.all_chars_substring.
    + apply Nat.ltb_ge in E4. split; [lia|done].
Qed.

Lemma strip_fixed_texts t :
  (Py.strip t = "" ∨ Py.strip t = "?") → Py.filter_chars Py.is_digit t = "".
Proof.
  intros H. change (Py.remove_non_digits t = "").
  rewrite <- PyFacts.remove_non_digits_strip. by destruct H as [-> | ->].
Qed.

Lemma parse_time_refines t : _parse_time t = Ok (TimeParser t).
Proof.
  destruct t as [t|]; [|done]. unfold _parse_time, TimeParser.
  destruct (String.eqb (Py.strip t) "?" || String.eqb (Py.strip t) "") eqn:E.
  - assert (Hd : Py.filter_chars Py.is_digit t = "").
    { apply strip_fixed_texts. apply orb_prop in E as [E|E];
        apply String.eqb_eq in E; auto. }
    rewrite Hd. simpl. by destruct (orb (String.eqb t "") _).
  - assert (Ht : String.eqb t "" || String.eqb t "?" = false).
    { apply orb_false_elim in E as [E1 E2].
      destruct (String.eqb_spec t "") as [->|]; [done|].
      destruct (String.eqb_spec t "?") as [->|]; [done|]. done. }
    rewrite Ht. rewrite PyFacts.remove_non_digits_strip.
    unfold Py.remove_non_digits.
    pose proof (PyFacts.all_chars_filter Py.is_digit t) as Hall.
    set (d := Py.filter_chars Py.is_digit t) in *.
    destruct (String.eqb_spec d "") as [->|Hne]; [done|].
    destruct (String.length d <=? 2)%nat eqn:E2; [done|].
    apply Nat.leb_gt in E2.
    destruct (clock_digits d Hall E2) as [Hlen Hd4].
    unfold Py.last_chars, Py.slice. simpl in Hlen, Hd4.
    change ("0" +:+ d) with (String "0" d).
    set (d4 := if (String.length d =? 3)%nat then _ else _) in *.
    change (2 - 0)%nat with 2%nat. change (4 - 2)%nat with 2%nat.
    assert (H1 : String.length (substring 0 2 d4) = 2%nat)
      by (apply PyFacts.length_substring; lia).
    assert (H2 : String.length (substring 2 2 d4) = 2%nat)
      by (apply PyFacts.length_substring; lia).
    rewrite !PyFacts.int_digits;
      eauto using PyFacts.all_chars_substring, PyFacts.nonempty_of_length.
    simpl.
    pose proof (digits_value_two _ H1 (PyFacts.all_chars_substring _ _ 0%nat 2%nat Hd4)).
    pose proof (digits_value_two _ H2 (PyFacts.all_chars_substring _ _ 2%nat 2%nat Hd4)).
    destruct (orb (Z.ltb 23 _) _) eqn:Eb; [done|].
    rewrite !format_02d_two_digits by lia. done.
Qed.

Lemma time_parser_shape t :
  TimeParser t = None ∨
  ∃ hh mm, (0 ≤ hh ≤ 23)%Z ∧ (0 ≤ mm ≤ 59)%Z ∧
           TimeParser t = Some (two_digits hh +:+ ":" +:+ two_digits mm).
Proof.
  destruct t as [t|]; [|by left]. unfold TimeParser.
  destruct (orb (String.eqb t "") _); [by left|].
  pose proof (PyFacts.all_chars_filter Py.is_digit t) as Hall.
  set (d := Py.filter_chars Py.is_digit t) in *.
  destruct (String.length d <=? 2)%nat eqn:E2; [by left|].
  apply Nat.leb_gt in E2.
  destruct (clock_digits d Hall E2) as [Hlen Hd4]. simpl in Hlen, Hd4.
  set (d4 := if (String.length d =? 3)%nat then _ else _) in *.
  assert (H1 : String.length (substring 0 2 d4) = 2%nat)
    by (apply PyFacts.length_substring; lia).
  assert (H2 : String.length (substring 2 2 d4) = 2%nat)
    by (apply PyFacts.length_substring; lia).
  pose proof (digits_value_two _ H1 (PyFacts.all_chars_substring _ _ 0%nat 2%nat Hd4)).
  pose proof (digits_value_two _ H2 (PyFacts.all_chars_substring _ _ 2%nat 2%nat Hd4)).
  destruct (orb (Z.ltb 23 _) _) eqn:Eb; [by left|]. right.
  apply orb_false_elim in Eb as [Eh Em].
  apply Z.ltb_ge in Eh, Em.
  exists (Py.digits_value 0 (substring 0 2 d4)), (Py.digits_value 0 (substring 2 2 d4)).
  split_and!; [lia..|done].
Qed.

(** C5. For every input, [_parse_time] returns without raising what the
    specification's steps ([TimeParser]) give, and that is null or a
    zero-padded ["HH:MM"] with [HH <= 23] and [MM <= 59]; the five examples
    of the specification hold. *)
Theorem C5_time_parser :
  (∀ t, _parse_time t = Ok (TimeParser t)) ∧
  (∀ t, _parse_time t = Ok None ∨
        ∃ hh mm, (0 ≤ hh ≤ 23)%Z ∧ (0 ≤ mm ≤ 59)%Z ∧
                 _parse_time t = Ok (Some (two_digits hh +:+ ":" +:+ two_digits mm))) ∧
  _parse_time (Some "700") = Ok (Some "07:00") ∧
  _parse_time (Some "2345") = Ok (Some "23:45") ∧
  _parse_time (Some "?") = Ok None ∧
  _parse_time (Some "99") = Ok None ∧
  _parse_time (Some "2500") = Ok None.
Proof.
  split_and!; try reflexivity.
  - apply parse_time_refines.
  - intros t. rewrite parse_time_refines.
    destruct (time_parser_shape t) as [->|(hh & mm & ? & ? & ->)]; eauto 10.
Qed.

(** ** LocationParser *)

Lemma known_countries_names b : b ∈ known_countries ↔ b ∈ known_country_names.
Proof.
  unfold known_countries, known_country_names.
  rewrite !elem_of_union, !elem_of_singleton, !elem_of_cons, elem_of_nil.
  tauto.
Qed.


(** The comma-free branch, on the text as given. *)
Lemma split_location_no_comma l :
  Py.contains "," l = false →
  split_location (Some l) =
    if existsb (λ ctry, Py.contains ctry l) country_substrings
    then Ok (None, None, Some (Py.strip l))
    else Ok (Some (Py.strip l), None, None).
Proof.
  intros H. unfold split_location.
  rewrite PyFacts.contains_comma_strip, H. simpl negb. cbv iota.
  assert (E : existsb (λ ctry, Py.contains ctry (Py.strip l)) country_substrings
              = existsb (λ ctry, Py.contains ctry l) country_substrings).
  { unfold country_substrings, existsb.
    by rewrite !PyFacts.contains_strip. }
  by rewrite E.
Qed.

(** The branch with a comma, by the number of parts. *)
Lemma split_location_comma l :
  Py.contains "," l = true →
  split_location (Some l) =
    match location_parts l with
    | [] => Raise IndexError
    | [p0] => Ok (Some p0, None, None)
    | [p0; p1] =>
        if bool_decide (p1 ∈ known_countries)
        then Ok (Some p0, None, Some p1)
        else Ok (Some p0, Some p1, None)
    | p0 :: p1 :: ps =>
        match last ps with
        | Some z => Ok (Some p0, Some p1, Some z)
        | None => Raise IndexError
        end
    end.
Proof.
  intros H. unfold split_location.
  rewrite PyFacts.contains_comma_strip, H. simpl negb. cbv iota.
  rewrite PyFacts.strip_split_strip. fold (location_parts l).
  destruct (location_parts l) as [|p0 [|p1 [|p2 ps]]]; try done.
  change (length (p0 :: p1 :: p2 :: ps) =? 1)%nat with false.
  change (length (p0 :: p1 :: p2 :: ps) =? 2)%nat with false.
  cbv iota. unfold getitem_last, getitem. simpl lookup.
  change (last (p0 :: p1 :: p2 :: ps)) with (last (p2 :: ps)).
  by destruct (last (p2 :: ps)).
Qed.

(** C8. For a location with a comma, the parts are the trimmed non-empty
    pieces between commas; two parts give city and country (second part in
    the known-country set) or city and state; three or more give first,
    second and last as city, state and country.  ["Near Paris, France"]
    gives city ["Near Paris"], no state, country ["France"]. *)
Theorem C8_location_parts :
  (∀ l, Py.contains "," l = true →
     (∀ a b, location_parts l = [a; b] →
        split_location (Some l) =
          Ok (if bool_decide (b ∈ known_country_names)
              then (Some a, None, Some b) else (Some a, Some b, None))) ∧
     (∀ a b rest z, location_parts l = a :: b :: rest ++ [z] →
        split_location (Some l) = Ok (Some a, Some b, Some z))) ∧
  split_location (Some "Near Paris, France")
    = Ok (Some "Near Paris", None, Some "France").
Proof.
  split; [|reflexivity]. intros l Hl. split.
  - intros a b Hp. rewrite split_location_comma, Hp by done.
    rewrite (bool_decide_ext _ _ (known_countries_names b)).
    by destruct (bool_decide _).
  - intros a b rest z Hp. rewrite split_location_comma, Hp by done.
    destruct rest as [|r rest]; simpl; [done|].
    change (r :: rest ++ [z])%list with ((r :: rest) ++ [z])%list.
    by rewrite last_snoc.
Qed.

Lemma C8_location_parts_witness :
  split_location (Some "Lyon , Rhone,, France ")
    = Ok (Some "Lyon", Some "Rhone", Some "France") ∧
  split_location (Some " Dover ,England")
    = Ok (Some "Dover", None, Some "England").
Proof.
  split.
  - apply (proj2 (proj1 C8_location_parts "Lyon , Rhone,, France " eq_refl)
             "Lyon" "Rhone" [] "France").
    reflexivity.
  - apply (proj1 (proj1 C8_location_parts " Dover ,England" eq_refl)
             "Dover" "England").
    reflexivity.
Defined.



(** ** FatalityParser *)

(** C6. The three examples of the specification: unknown passengers and
    crew, all three counts, and a missing input. *)
Theorem C6_fatality_examples :
  parse_fatalities (Some "22   (passengers:?  crew:?)") = Ok (Some 22%Z, None, None) ∧
  parse_fatalities (Some "1    (passengers:1  crew:0)") = Ok (Some 1%Z, Some 1%Z, Some 0%Z) ∧
  parse_fatalities None = Ok (None, None, None).
Proof. split_and!; reflexivity. Qed.

(** ** The parsers can raise *)

(** C1. The parsers do raise.  After ["passengers:"] the capture ["1?"] is
    not the text ["?"], and [int] raises [ValueError] on it; a location of
    commas and blanks has a comma and no part, and [parts[0]] raises
    [IndexError]. *)
Theorem C1_parsers_raise :
  parse_fatalities (Some "5 (passengers:1? crew:0)") = Raise ValueError ∧
  parse_fatalities (Some "5 (passengers:?? crew:0)") = Raise ValueError ∧
  split_location (Some " , ") = Raise IndexError.
Proof. split_and!; reflexivity. Qed.

(** C9. A blank location is returned as the city, an empty string: the
    comma-free branch returns the trimmed text whatever it is. *)
Theorem C9_empty_city :
  split_location (Some "   ") = Ok (Some "", None, None) ∧
  split_location (Some "") = Ok (Some "", None, None).
Proof. split; reflexivity. Qed.

(** ** ColumnNormalizer *)

(** The chain of tests of [canonical_name] is the ordered rule list. *)
Lemma canonical_name_rules col :
  canonical_name col = first_match column_rules (Py.lower (Py.strip col)).
Proof. reflexivity. Qed.

Lemma first_match_at rules h : ∀ i p name,
  rules !! i = Some (p, name) → p h = true →
  (∀ j q m, j < i → rules !! j = Some (q, m) → q h = false) →
  first_match rules h = name.
Proof.
  induction rules as [|[q m] rules IH]; intros i p name Hi Hp Hbefore; [done|].
  destruct i as [|i]; simpl in *.
  - injection Hi as -> ->. by rewrite Hp.
  - rewrite (Hbefore 0 q m) by (done || lia).
    apply (IH i p name); [done..|].
    intros j q' m' Hj Hq. apply (Hbefore (S j) q' m'); [lia|done].
Qed.

(** What a header is tested as: trimmed and in lower case, whatever blanks
    surround it and whatever the case of its letters. *)
Lemma header_key ws1 ws2 h h' :
  Py.all_chars Py.is_space ws1 = true → Py.all_chars Py.is_space ws2 = true →
  Py.lower h' = Py.lower h →
  Py.lower (Py.strip (Py.strip (ws1 +:+ h' +:+ ws2))) = Py.lower (Py.strip h).
Proof.
  intros H1 H2 Hh. rewrite PyFacts.strip_idem. unfold Py.strip at 1.
  rewrite PyFacts.strip_by_app_all by done. fold (Py.strip h').
  by rewrite <- !PyFacts.strip_lower, Hh.
Qed.

(** C4, as the code has it.  A header whose trimmed, lower-cased form
    satisfies a rule and none of the rules before it gets that rule's
    canonical name, and so does the header in any letter case and between
    any blanks. *)
Theorem C4_first_rule_wins h i p name :
  column_rules !! i = Some (p, name) →
  p (Py.lower (Py.strip h)) = true →
  (∀ j q m, j < i → column_rules !! j = Some (q, m) →
            q (Py.lower (Py.strip h)) = false) →
  ∀ ws1 ws2 h',
    Py.all_chars Py.is_space ws1 = true → Py.all_chars Py.is_space ws2 = true →
    Py.lower h' = Py.lower h →
    normalize_header (ws1 +:+ h' +:+ ws2) = name.
Proof.
  intros Hi Hp Hbefore ws1 ws2 h' H1 H2 Hh.
  unfold normalize_header. rewrite canonical_name_rules, (header_key _ _ h) by done.
  by apply (first_match_at _ _ i p).
Qed.

Lemma C4_first_rule_wins_witness :
  normalize_header ("  " +:+ "Ground Fatalities (est.)" +:+ " ") = "fatalities".
Proof.
  apply (C4_first_rule_wins "ground fatalities (est.)" 5
           (Py.contains "fatalit") "fatalities" eq_refl eq_refl).
  - intros j q m Hj Hq.
    do 5 (destruct j as [|j]; [by injection Hq as <- <-|]). lia.
  - reflexivity.
  - reflexivity.
  - reflexivity.
Defined.

(** The claim as written fails: a header can satisfy a rule and get the
    name of an earlier rule.  ["Fatality Type"] contains ["fatalit"] and is
    named [aircraft_type]. *)
Lemma C4_counterexample :
  ¬ (∀ h p name, (p, name) ∈ column_rules →
       p (Py.lower (Py.strip h)) = true → normalize_header h = name).
Proof.
  intros H.
  specialize (H "Fatality Type" (Py.contains "fatalit") "fatalities").
  assert (Hn : normalize_header "Fatality Type" = "aircraft_type") by reflexivity.
  rewrite Hn in H. discriminate H; [|reflexivity].
  unfold column_rules. do 5 apply list_elem_of_further. apply list_elem_of_here.
Qed.

(** The second alternative of rule 8 is never reached: rule 6 comes first. *)
Lemma ground_fatalities_header :
  normalize_header "ground_fatalities" = "fatalities" ∧
  normalize_header "Ground" = "ground_fatalities".
Proof. split; reflexivity. Qed.

(** ** Tables: renaming, reading and assigning columns *)

Section FrameFacts.

Local Open Scope list_scope.
Local Open Scope nat_scope.

Context {P : Converters}.
Implicit Types (df : DataFrame P) (v : list (cell (scalar P))).
Implicit Types (c : string * list (cell (scalar P))).

Lemma dict_of_lookup_gen (f : string → string) (cols : list string) :
  ∀ (m : gmap string string) (k : string),
  foldl (λ m (h : string), <[h := f h]> m) m cols !! k
  = if decide (k ∈ cols) then Some (f k) else m !! k.
Proof.
  induction cols as [|x cols IH]; intros m k.
  - destruct (decide (k ∈ [])) as [H|]; [by apply elem_of_nil in H|done].
  - change (foldl _ m (x :: cols)) with
      (foldl (λ m (h : string), <[h := f h]> m) (<[x := f x]> m) cols).
    rewrite IH.
    destruct (decide (k ∈ cols)) as [Hin|Hnin], (decide (k ∈ x :: cols)) as [Hin'|Hnin'];
      try done.
    + exfalso. apply Hnin'. by apply list_elem_of_further.
    + apply elem_of_cons in Hin' as [->|]; [|done]. by rewrite lookup_insert_eq.
    + rewrite lookup_insert_ne; [done|]. intros ->. apply Hnin', list_elem_of_here.
Qed.

Lemma dict_of_lookup (f : string → string) (cols : list string) (k : string) :
  k ∈ cols → dict_of f cols !! k = Some (f k).
Proof. intros H. unfold dict_of. by rewrite dict_of_lookup_gen, decide_True. Qed.

(** Renaming by a dictionary that has every label as a key. *)
Lemma rename_dict_of f df :
  rename (dict_of f (labels df)) df
  = {| nrows := nrows df; columns := prod_map f id <$> columns df |}.
Proof.
  unfold rename. f_equal. apply list_fmap_ext. intros i [l c] Hi.
  unfold prod_map. simpl. rewrite dict_of_lookup; [done|].
  apply list_elem_of_fmap. exists (l, c). split; [done|].
  by apply list_elem_of_lookup_2 in Hi.
Qed.

(** [normalize_columns] relabels every column and does nothing else. *)
Lemma normalize_columns_eq df :
  normalize_columns df
  = {| nrows := nrows df;
       columns := prod_map normalize_header id <$> columns df |}.
Proof.
  unfold normalize_columns. cbv zeta. rewrite !rename_dict_of. simpl. f_equal.
  rewrite <- list_fmap_compose. apply list_fmap_ext. by intros i [l c] _.
Qed.

Lemma labels_normalize_columns df :
  labels (normalize_columns df) = normalize_header <$> labels df.
Proof.
  rewrite normalize_columns_eq. unfold labels. simpl.
  rewrite <- !list_fmap_compose. apply list_fmap_ext. by intros i [l c] _.
Qed.

Lemma has_column_true name df : has_column name df = true ↔ name ∈ labels df.
Proof. unfold has_column. apply bool_decide_eq_true. Qed.

Lemma has_column_false name df : has_column name df = false ↔ name ∉ labels df.
Proof. unfold has_column. apply bool_decide_eq_false. Qed.

Lemma nrows_set_column name v df : nrows (set_column name v df) = nrows df.
Proof. done. Qed.

(** *** The values an assignment gives *)

Lemma length_assigned_values v n k : length (assigned_values v n k) = k.
Proof.
  unfold assigned_values. destruct (_ && _).
  - by rewrite length_fmap, length_seq.
  - by rewrite length_replicate.
Qed.

Lemma assigned_values_once v n : assigned_values v n 1 = [v].
Proof. done. Qed.

Lemma elem_of_assigned_values v n k x :
  x ∈ assigned_values v n k → length v = n → length x = n.
Proof.
  unfold assigned_values. destruct (_ && _).
  - intros (j & -> & _)%list_elem_of_fmap _. by rewrite length_replicate.
  - by intros [-> _]%elem_of_replicate.
Qed.

Lemma fill_labels name (vals : list (list (cell (scalar P)))) cols :
  (fill name vals cols).*1 = cols.*1.
Proof.
  revert vals. induction cols as [|c cols IH]; intros vals; simpl; [done|].
  destruct (decide (c.1 = name)); [destruct vals|]; simpl; by rewrite IH.
Qed.

Lemma length_fill name (vals : list (list (cell (scalar P)))) cols :
  length (fill name vals cols) = length cols.
Proof.
  rewrite <- (length_fmap fst (fill name vals cols)), fill_labels.
  by rewrite length_fmap.
Qed.

(** A column keeps its place and label, and its values unless it carries
    the label filled. *)
Lemma fill_lookup name (vals : list (list (cell (scalar P)))) cols i l x :
  cols !! i = Some (l, x) →
  ∃ x', fill name vals cols !! i = Some (l, x') ∧
        (l ≠ name → x' = x) ∧ (x' = x ∨ x' ∈ vals).
Proof.
  revert vals i. induction cols as [|c cols IH]; intros vals i Hi; [done|].
  destruct i as [|i]; simpl in Hi.
  - injection Hi as ->. simpl. destruct (decide (l = name)) as [->|Hne].
    + destruct vals as [|y vals]; simpl.
      * exists x. by split_and!; [..|left].
      * exists y. split_and!; [done..|]. right. apply list_elem_of_here.
    + exists x. by split_and!; [..|left].
  - simpl. destruct (decide (c.1 = name)); [destruct vals as [|y vals]|]; simpl.
    + apply IH, Hi.
    + destruct (IH vals i Hi) as (x' & H1 & H2 & H3).
      exists x'. split_and!; [done..|]. destruct H3; [by left|right].
      by apply list_elem_of_further.
    + apply IH, Hi.
Qed.

Lemma filter_fill_other name (vals : list (list (cell (scalar P)))) cols src :
  src ≠ name →
  filter (λ c, c.1 = src) (fill name vals cols) = filter (λ c, c.1 = src) cols.
Proof.
  intros Hne. revert vals. induction cols as [|c cols IH]; intros vals; [done|].
  simpl. destruct (decide (c.1 = name)) as [Heq|Hc].
  - destruct vals as [|y vals]; rewrite !filter_cons, IH;
      rewrite ?decide_False; simpl; congruence.
  - by rewrite !filter_cons, IH.
Qed.

Lemma length_filter_fill name (vals : list (list (cell (scalar P)))) cols :
  length (filter (λ c, c.1 = name) (fill name vals cols))
  = length (filter (λ c, c.1 = name) cols).
Proof.
  revert vals. induction cols as [|c cols IH]; intros vals; [done|].
  simpl. destruct (decide (c.1 = name)) as [Heq|Hc].
  - destruct vals as [|y vals]; rewrite !filter_cons, !decide_True by done;
      simpl; by rewrite IH.
  - by rewrite !filter_cons, !decide_False, IH.
Qed.

(** The columns of the label hold the values they were filled with. *)
Lemma filter_fill name (vals : list (list (cell (scalar P)))) cols :
  length vals = length (filter (λ c, c.1 = name) cols) →
  (filter (λ c, c.1 = name) (fill name vals cols)).*2 = vals.
Proof.
  revert vals. induction cols as [|c cols IH]; intros vals.
  - by destruct vals.
  - simpl. destruct (decide (c.1 = name)) as [Heq|Hc].
    + rewrite filter_cons, decide_True by done. destruct vals as [|y vals]; [done|].
      simpl. intros [= Hlen]. rewrite filter_cons, decide_True by done.
      simpl. by rewrite IH.
    + rewrite !filter_cons, !decide_False by done. apply IH.
Qed.

(** Filling the columns of a label with the values they hold changes
    nothing. *)
Lemma fill_fixed name (vals : list (list (cell (scalar P)))) cols :
  vals = (filter (λ c, c.1 = name) cols).*2 → fill name vals cols = cols.
Proof.
  revert vals. induction cols as [|c cols IH]; intros vals Hv; [done|]. simpl.
  destruct (decide (c.1 = name)) as [Heq|Hc].
  - rewrite filter_cons, decide_True in Hv by done. subst vals.
    rewrite fmap_cons. rewrite (IH _ eq_refl). by destruct c.
  - rewrite filter_cons, decide_False in Hv by done. by rewrite (IH _ Hv).
Qed.

Lemma filter_absent name df :
  has_column name df = false → filter (λ c, c.1 = name) (columns df) = [].
Proof.
  intros Hhas%bool_decide_eq_false.
  destruct (filter _ (columns df)) as [|c cs] eqn:Hf; [done|].
  assert (Hc : c ∈ filter (λ c, c.1 = name) (columns df))
    by (rewrite Hf; apply list_elem_of_here).
  apply list_elem_of_filter in Hc as [<- Hc]. exfalso. apply Hhas.
  apply list_elem_of_fmap. by exists c.
Qed.

Lemma filter_present name df :
  filter (λ c, c.1 = name) (columns df) ≠ [] → has_column name df = true.
Proof.
  intros Hne. destruct (has_column name df) eqn:Hhas; [done|].
  by apply filter_absent in Hhas.
Qed.

(** *** One assignment *)

Lemma labels_set_column name v df :
  labels (set_column name v df)
  = if has_column name df then labels df else labels df ++ [name].
Proof.
  unfold labels, set_column. simpl. destruct (has_column name df).
  - apply fill_labels.
  - by rewrite fmap_app.
Qed.

Lemma labels_set_column_mono name v df l :
  l ∈ labels df → l ∈ labels (set_column name v df).
Proof.
  rewrite labels_set_column. destruct (has_column name df); [done|].
  rewrite elem_of_app. tauto.
Qed.

Lemma labels_set_column_self name v df : name ∈ labels (set_column name v df).
Proof.
  rewrite labels_set_column. destruct (has_column name df) eqn:H.
  - by apply has_column_true.
  - rewrite elem_of_app, list_elem_of_singleton. tauto.
Qed.

Lemma labels_set_column_other name v df l :
  l ≠ name → l ∈ labels (set_column name v df) ↔ l ∈ labels df.
Proof.
  intros Hne. rewrite labels_set_column. destruct (has_column name df); [done|].
  rewrite elem_of_app, list_elem_of_singleton. tauto.
Qed.


Lemma elem_of_labels df c : c ∈ columns df → c.1 ∈ labels df.
Proof. intros H. apply list_elem_of_fmap. by exists c. Qed.

Lemma length_set_column name v df :
  length (columns (set_column name v df))
  = if has_column name df then length (columns df) else S (length (columns df)).
Proof.
  unfold set_column. simpl. destruct (has_column name df).
  - apply length_fill.
  - rewrite length_app. simpl. lia.
Qed.

(** A column present before the assignment keeps its place and label, and
    its values unless the assignment is to its label; the values it gets
    then are as long as the assigned [Series]. *)
Lemma lookup_set_column name v df i l x :
  columns df !! i = Some (l, x) →
  ∃ x', columns (set_column name v df) !! i = Some (l, x') ∧
        (l ≠ name → x' = x) ∧
        (length v = nrows df → length x = nrows df → length x' = nrows df).
Proof.
  intros Hi. unfold set_column. simpl. destruct (has_column name df) eqn:Hhas.
  - destruct (fill_lookup name
      (assigned_values v (nrows df) (length (filter (λ c, c.1 = name) (columns df))))
      _ _ _ _ Hi) as (x' & H1 & H2 & H3).
    exists x'. split_and!; [done..|]. intros Hv Hx. destruct H3 as [->|H3]; [done|].
    by eapply elem_of_assigned_values.
  - exists x. split_and!; [|done..].
    by rewrite lookup_app_l by (by eapply lookup_lt_Some).
Qed.



(** Reading a label is not affected by an assignment to another. *)
Lemma filter_set_column_other name v df src :
  src ≠ name →
  filter (λ c, c.1 = src) (columns (set_column name v df))
  = filter (λ c, c.1 = src) (columns df).
Proof.
  intros Hne. unfold set_column. simpl. destruct (has_column name df).
  - by apply filter_fill_other.
  - rewrite filter_app, filter_cons, decide_False by (simpl; congruence).
    by rewrite filter_nil, app_nil_r.
Qed.

Lemma series_set_column_other e name v df src :
  src ≠ name → series e src (set_column name v df) = series e src df.
Proof. intros H. unfold series. by rewrite filter_set_column_other. Qed.

(** The number of columns of a label changes only when the label is new. *)
Lemma length_filter_set_column_self name v df :
  length (filter (λ c, c.1 = name) (columns (set_column name v df)))
  = if has_column name df
    then length (filter (λ c, c.1 = name) (columns df)) else 1.
Proof.
  unfold set_column. simpl. destruct (has_column name df) eqn:Hhas.
  - apply length_filter_fill.
  - rewrite filter_app, (filter_absent _ _ Hhas).
    by rewrite filter_cons, decide_True.
Qed.

Lemma series_Ok e name df v :
  series e name df = Ok v →
  (name, v) ∈ columns df ∧ ∀ c, c ∈ columns df → c.1 = name → c.2 = v.
Proof.
  unfold series. destruct (filter _ _) as [|c0 [|]] eqn:Hf; try done.
  intros [= <-].
  assert (Hc0 : c0 ∈ filter (λ c, c.1 = name) (columns df))
    by (rewrite Hf; apply list_elem_of_here).
  apply list_elem_of_filter in Hc0 as [Hn Hc0]. split.
  - by destruct c0; simpl in *; subst.
  - intros c Hc Hcn.
    assert (Hin : c ∈ filter (λ c, c.1 = name) (columns df))
      by by apply list_elem_of_filter.
    rewrite Hf in Hin. by apply list_elem_of_singleton in Hin as ->.
Qed.

Lemma series_Ok_settled e name df v : series e name df = Ok v → settled name v df.
Proof.
  intros [Hin Hall]%series_Ok. split; [|done]. by apply elem_of_labels in Hin.
Qed.

(** *** What an assignment leaves *)

Lemma assigned_set_column name v df : assigned name v (set_column name v df).
Proof.
  unfold assigned. cbv zeta. rewrite length_filter_set_column_self, nrows_set_column.
  unfold set_column. simpl. destruct (has_column name df) eqn:Hhas.
  - split.
    + intros Hnil. apply (f_equal length) in Hnil.
      rewrite length_filter_fill in Hnil. apply nil_length_inv in Hnil.
      apply has_column_true, list_elem_of_fmap in Hhas as (c & Hc & Hin).
      assert (Hf : c ∈ filter (λ c, c.1 = name) (columns df))
        by by apply list_elem_of_filter.
      rewrite Hnil in Hf. by apply elem_of_nil in Hf.
    + apply filter_fill. by rewrite length_assigned_values.
  - rewrite filter_app, (filter_absent _ _ Hhas).
    by rewrite filter_cons, decide_True.
Qed.

(** Assigning again what is assigned changes nothing. *)
Lemma set_column_assigned name v df : assigned name v df → set_column name v df = df.
Proof.
  intros [Hne Heq]. unfold set_column. rewrite (filter_present _ _ Hne).
  rewrite (fill_fixed _ _ _ (eq_sym Heq)). by destruct df.
Qed.

Lemma assigned_set_column_other name v df src w :
  src ≠ name → assigned src w df → assigned src w (set_column name v df).
Proof.
  intros Hne. unfold assigned. cbv zeta.
  by rewrite filter_set_column_other, nrows_set_column.
Qed.

(** Where the label is read as one column, that column holds the assigned
    values. *)
Lemma assigned_series e name df v w :
  assigned name v df → series e name df = Ok w → w = v.
Proof.
  unfold assigned, series. cbv zeta.
  destruct (filter _ (columns df)) as [|c [|c' cs]]; try done.
  simpl. by intros [_ [= ->]] [= <-].
Qed.

Lemma assigned_settled name v df :
  assigned name v df → at_most_once name df → settled name v df.
Proof.
  unfold assigned, at_most_once. cbv zeta. intros [Hne Heq] Hone.
  destruct (filter _ (columns df)) as [|c [|c' cs]] eqn:Hf; [done| |simpl in Hone; lia].
  simpl in Heq. injection Heq as Heq.
  assert (Hc : c ∈ filter (λ c, c.1 = name) (columns df))
    by (rewrite Hf; apply list_elem_of_here).
  apply list_elem_of_filter in Hc as [Hn Hc]. split.
  - rewrite <- Hn. by apply elem_of_labels.
  - intros c0 Hc0 Hn0.
    assert (Hin : c0 ∈ filter (λ c, c.1 = name) (columns df))
      by by apply list_elem_of_filter.
    rewrite Hf in Hin. by apply list_elem_of_singleton in Hin as ->.
Qed.

Lemma at_most_once_series e name df v :
  series e name df = Ok v → at_most_once name df.
Proof.
  unfold series, at_most_once.
  by destruct (filter _ (columns df)) as [|c [|c' cs]].
Qed.



Lemma settled_set_column_other name v df src w :
  src ≠ name → settled src w df → settled src w (set_column name v df).
Proof.
  intros Hne [Hin Hall]. split; [by apply labels_set_column_mono|].
  intros c Hc Hcn. apply Hall; [|done].
  assert (Hf : c ∈ filter (λ c, c.1 = src) (columns (set_column name v df)))
    by by apply list_elem_of_filter.
  rewrite filter_set_column_other in Hf by done.
  by apply list_elem_of_filter in Hf as [_ Hf].
Qed.

(** *** Sequences of assignments *)

Lemma writes_trans T df1 df2 df3 :
  writes T df1 df2 → writes T df2 df3 → writes T df1 df3.
Proof. intros H12 H23. induction H23; [done|]. apply writes_set; auto. Qed.

Lemma writes_mono T T' df df' :
  (∀ l, l ∈ T → l ∈ T') → writes T df df' → writes T' df df'.
Proof.
  intros Hsub H. induction H; [apply writes_refl|]. apply writes_set; auto.
Qed.

Lemma writes_one T df name v :
  name ∈ T → (well_formed df → length v = nrows df) →
  writes T df (set_column name v df).
Proof. intros. apply writes_set; [apply writes_refl|done..]. Qed.



Lemma writes_length T df df' :
  writes T df df' → length (columns df) ≤ length (columns df').
Proof.
  induction 1 as [|df df' name v _ IH _ _]; [done|].
  etrans; [exact IH|]. rewrite length_set_column.
  destruct (has_column name df'); lia.
Qed.

(** Columns keep their place and label, and their values unless written. *)
Lemma writes_lookup T df df' i l x :
  writes T df df' → columns df !! i = Some (l, x) →
  ∃ x', columns df' !! i = Some (l, x') ∧ (l ∉ T → x' = x).
Proof.
  intros H Hi. induction H as [|df df' name v _ IH Hname _]; [by eauto|].
  destruct IH as (x' & Hx' & Hkeep); [done|].
  destruct (lookup_set_column name v _ _ _ _ Hx') as (x'' & Hx'' & Hsame & _).
  exists x''. split; [done|]. intros Hl. rewrite Hsame by (by intros ->). auto.
Qed.


Lemma writes_labels_mono T df df' l :
  writes T df df' → l ∈ labels df → l ∈ labels df'.
Proof. induction 1; [done|]. intros. by apply labels_set_column_mono; auto. Qed.

Lemma writes_labels T df df' l :
  writes T df df' → l ∉ T → l ∈ labels df' ↔ l ∈ labels df.
Proof.
  induction 1 as [|df df' name v _ IH Hname _]; [done|]. intros Hl.
  rewrite labels_set_column_other by (by intros ->). auto.
Qed.

Lemma writes_has_column T df df' l :
  writes T df df' → l ∉ T → has_column l df' = has_column l df.
Proof. intros. apply bool_decide_ext. by eapply writes_labels. Qed.

Lemma writes_series T df df' e src :
  writes T df df' → src ∉ T → series e src df' = series e src df.
Proof.
  induction 1 as [|df df' name v _ IH Hname _]; [done|]. intros Hl.
  rewrite series_set_column_other by (by intros ->). auto.
Qed.

Lemma writes_settled T df df' name v :
  writes T df df' → name ∉ T → settled name v df → settled name v df'.
Proof.
  induction 1 as [|df df' name' v' _ IH Hname _]; [done|]. intros Hl Hs.
  apply settled_set_column_other; [by intros ->|auto].
Qed.

Lemma writes_assigned T df df' name v :
  writes T df df' → name ∉ T → assigned name v df → assigned name v df'.
Proof.
  induction 1 as [|df df' name' v' _ IH Hname _]; [done|]. intros Hl Hs.
  apply assigned_set_column_other; [by intros ->|auto].
Qed.

(** *** The steps of the cleaning pass as assignments *)

Lemma bind_Ok {A B} (r : result A) (k : A → result B) y :
  r ≫= k = Ok y ↔ ∃ x, r = Ok x ∧ k x = Ok y.
Proof.
  destruct r as [x|e]; simpl; split.
  - by exists x.
  - by intros (? & [= <-] & ?).
  - done.
  - by intros (? & ? & ?).
Qed.

Lemma apply_rows_length {A B} (f : A → result B) l l' :
  apply_rows f l = Ok l' → length l' = length l.
Proof.
  revert l'. induction l as [|x l IH]; intros l'; simpl.
  - by intros [= <-].
  - intros (y & _ & (ys & Hys & [= <-])%bind_Ok)%bind_Ok.
    simpl. f_equal. auto.
Qed.

Lemma series_length e name df v :
  series e name df = Ok v → well_formed df → length v = nrows df.
Proof. intros [Hin _]%series_Ok Hwf. by apply (Hwf _ Hin). Qed.

Lemma parse_date_col_writes df df' :
  parse_date_col df = Ok df' → writes ["date_parsed"] df df'.
Proof.
  unfold parse_date_col. destruct (has_column "date" df).
  - intros (date & Hdate & [= <-])%bind_Ok.
    apply writes_one; [apply list_elem_of_here|]. intros Hwf.
    rewrite to_datetime_length. by eapply series_length.
  - intros [= <-]. apply writes_refl.
Qed.

Lemma parse_time_col_writes df df' :
  parse_time_col df = Ok df' → writes ["time_raw"; "time_hhmm"] df df'.
Proof.
  unfold parse_time_col. destruct (has_column "time" df); simpl.
  - intros (time & Htime & (time' & Htime' & (hhmm & Hh & [= <-])%bind_Ok)%bind_Ok)%bind_Ok.
    apply writes_set; [apply writes_one| |].
    + apply list_elem_of_here.
    + intros. by eapply series_length.
    + apply list_elem_of_further, list_elem_of_here.
    + intros Hwf. rewrite length_fmap, (apply_rows_length _ _ _ Hh).
      by eapply series_length.
  - intros [= <-]. apply writes_refl.
Qed.

Lemma coerce_numeric_writes T name df df' :
  name ∈ T → coerce_numeric name df = Ok df' → writes T df df'.
Proof.
  intros HT (v & Hv & [= <-])%bind_Ok. apply writes_one; [done|].
  intros Hwf. rewrite to_numeric_length. by eapply series_length.
Qed.

Lemma split_fatalities_writes df df' :
  split_fatalities df = Ok df' →
  writes ["fatalities_total"; "fatalities_passengers"; "fatalities_crew"] df df'.
Proof.
  unfold split_fatalities. destruct (has_column "fatalities" df); simpl.
  - intros (fatalities & Hf & (totals & Ht & H)%bind_Ok)%bind_Ok.
    apply bind_Ok in H as (d1 & H1 & (d2 & H2 & H3)%bind_Ok).
    pose proof (apply_rows_length _ _ _ Ht) as Hlen.
    eapply writes_trans; [|eapply coerce_numeric_writes; [|exact H3]].
    eapply writes_trans; [|eapply coerce_numeric_writes; [|exact H2]].
    eapply writes_trans; [|eapply coerce_numeric_writes; [|exact H1]].
    + repeat apply writes_set; try apply writes_refl.
      all: try (rewrite !elem_of_cons; tauto).
      all: intros Hwf; rewrite length_fmap, Hlen;
        apply (series_length ValueError "fatalities" _ _); [|exact Hwf];
        by rewrite ?series_set_column_other.
    + rewrite !elem_of_cons; tauto.
    + rewrite !elem_of_cons; tauto.
    + rewrite !elem_of_cons; tauto.
  - intros [= <-]. apply writes_refl.
Qed.

Lemma split_locations_writes df df' :
  split_locations df = Ok df' →
  writes ["location_city"; "location_state"; "location_country"] df df'.
Proof.
  unfold split_locations. destruct (has_column "location" df); simpl.
  - intros (location & Hl & (loc_split & Hs & [= <-])%bind_Ok)%bind_Ok.
    pose proof (apply_rows_length _ _ _ Hs) as Hlen.
    repeat apply writes_set; try apply writes_refl.
    all: try (rewrite !elem_of_cons; tauto).
    all: intros Hwf; rewrite length_fmap, Hlen;
      apply (series_length ValueError "location" _ _); [|exact Hwf];
      by rewrite ?series_set_column_other.
  - intros [= <-]. apply writes_refl.
Qed.

Lemma ground_numeric_writes df df' :
  ground_numeric df = Ok df' → writes ["ground_fatalities"] df df'.
Proof.
  unfold ground_numeric. destruct (has_column "ground_fatalities" df).
  - apply coerce_numeric_writes, list_elem_of_here.
  - intros [= <-]. apply writes_refl.
Qed.

(** The pass, step by step. *)
Lemma clean_dataset_steps df df' :
  clean_dataset df = Ok df' ↔
  ∃ d1 d2 d3 d4,
    parse_date_col (normalize_columns df) = Ok d1 ∧
    parse_time_col d1 = Ok d2 ∧
    split_fatalities d2 = Ok d3 ∧
    split_locations d3 = Ok d4 ∧
    ground_numeric d4 = Ok df'.
Proof.
  unfold clean_dataset. cbv zeta. rewrite bind_Ok.
  setoid_rewrite bind_Ok. setoid_rewrite bind_Ok. setoid_rewrite bind_Ok.
  split.
  - intros (d1 & ? & d2 & ? & d3 & ? & d4 & ? & ?). eauto 10.
  - intros (d1 & d2 & d3 & d4 & ? & ? & ? & ? & ?). eauto 10.
Qed.

(** The first four steps write derived columns only. *)
Lemma derived_steps_write df d4 d1 d2 d3 :
  parse_date_col df = Ok d1 → parse_time_col d1 = Ok d2 →
  split_fatalities d2 = Ok d3 → split_locations d3 = Ok d4 →
  writes derived_columns df d4.
Proof.
  intros H1%parse_date_col_writes H2%parse_time_col_writes
         H3%split_fatalities_writes H4%split_locations_writes.
  repeat (eapply writes_trans; [|eapply writes_mono; [|eassumption]]).
  - apply writes_refl.
  - unfold derived_columns. intros l. rewrite !elem_of_cons. tauto.
  - unfold derived_columns. intros l. rewrite !elem_of_cons. tauto.
  - unfold derived_columns. intros l. rewrite !elem_of_cons. tauto.
  - unfold derived_columns. intros l. rewrite !elem_of_cons. tauto.
Qed.


Lemma lookup_normalize_columns df i l x :
  columns df !! i = Some (l, x) →
  columns (normalize_columns df) !! i = Some (normalize_header l, x).
Proof.
  intros Hi. rewrite normalize_columns_eq. simpl.
  by rewrite list_lookup_fmap, Hi.
Qed.

Lemma length_normalize_columns df :
  length (columns (normalize_columns df)) = length (columns df).
Proof. rewrite normalize_columns_eq. simpl. by rewrite length_fmap. Qed.


(** *** What each step leaves, and that running it again changes nothing *)

Lemma parse_date_col_done df df' : parse_date_col df = Ok df' → date_done df'.
Proof.
  unfold parse_date_col, date_done. destruct (has_column "date" df) eqn:Hhas.
  - intros (date & Hdate & [= <-])%bind_Ok _. exists date.
    rewrite series_set_column_other by done. split; [done|].
    apply assigned_set_column.
  - intros [= <-]. by rewrite Hhas.
Qed.

Lemma date_done_fixed df : date_done df → parse_date_col df = Ok df.
Proof.
  unfold parse_date_col, date_done. destruct (has_column "date" df); [|done].
  intros (v & -> & Hs); [done|]. simpl. by rewrite set_column_assigned.
Qed.

Lemma date_done_writes T df df' :
  writes T df df' → "date" ∉ T → "date_parsed" ∉ T →
  date_done df → date_done df'.
Proof.
  intros Hw H1 H2 Hd. unfold date_done.
  rewrite (writes_has_column _ _ _ _ Hw H1), (writes_series _ _ _ _ _ Hw H1).
  intros (v & Hv & Hs)%Hd. exists v. split; [done|]. by eapply writes_assigned.
Qed.

Lemma parse_time_col_done df df' : parse_time_col df = Ok df' → time_done df'.
Proof.
  unfold parse_time_col, time_done. destruct (has_column "time" df) eqn:Hhas; simpl.
  - intros (time & Htime & (time' & Htime' & (hhmm & Hh & [= <-])%bind_Ok)%bind_Ok)%bind_Ok _.
    rewrite series_set_column_other in Htime' by done.
    assert (time' = time) as -> by congruence.
    exists time, hhmm. rewrite !series_set_column_other by done.
    split_and!; [done..| |].
    + apply assigned_set_column_other; [done|]. apply assigned_set_column.
    + apply assigned_set_column.
  - intros [= <-]. by rewrite Hhas.
Qed.

Lemma time_done_fixed df : time_done df → parse_time_col df = Ok df.
Proof.
  unfold parse_time_col, time_done. destruct (has_column "time" df); [|done].
  intros (v & hhmm & Hv & Hh & Hraw & Hhhmm); [done|]. simpl.
  rewrite Hv. simpl. rewrite (set_column_assigned _ _ _ Hraw), Hv. simpl.
  rewrite Hh. simpl. by rewrite set_column_assigned.
Qed.

Lemma time_done_writes T df df' :
  writes T df df' → "time" ∉ T → "time_raw" ∉ T → "time_hhmm" ∉ T →
  time_done df → time_done df'.
Proof.
  intros Hw H1 H2 H3 Hd. unfold time_done.
  rewrite (writes_has_column _ _ _ _ Hw H1), (writes_series _ _ _ _ _ Hw H1).
  intros (v & hhmm & Hv & Hh & Hraw & Hhhmm)%Hd. exists v, hhmm.
  split_and!; [done..| |]; by eapply writes_assigned.
Qed.

Lemma split_locations_done df df' : split_locations df = Ok df' → location_done df'.
Proof.
  unfold split_locations, location_done.
  destruct (has_column "location" df) eqn:Hhas; simpl.
  - intros (location & Hl & (loc_split & Hs & [= <-])%bind_Ok)%bind_Ok _.
    exists location, loc_split. rewrite !series_set_column_other by done.
    split_and!; [done..| | |].
    + do 2 (apply assigned_set_column_other; [done|]). apply assigned_set_column.
    + apply assigned_set_column_other; [done|]. apply assigned_set_column.
    + apply assigned_set_column.
  - intros [= <-]. by rewrite Hhas.
Qed.

Lemma location_done_fixed df : location_done df → split_locations df = Ok df.
Proof.
  unfold split_locations, location_done.
  destruct (has_column "location" df); [|done].
  intros (v & ls & Hv & Hs & Hcity & Hstate & Hcountry); [done|]. simpl.
  rewrite Hv. simpl. rewrite Hs. simpl.
  by rewrite (set_column_assigned _ _ _ Hcity), (set_column_assigned _ _ _ Hstate),
    (set_column_assigned _ _ _ Hcountry).
Qed.

(** The fatalities block leaves a column [fatalities_total]. *)
Lemma split_fatalities_adds df df' :
  split_fatalities df = Ok df' → has_column "fatalities" df = true →
  "fatalities_total" ∈ labels df'.
Proof.
  unfold split_fatalities. intros H Hhas. rewrite Hhas in H. simpl in H.
  apply bind_Ok in H as (fatalities & Hf & (totals & Ht & H)%bind_Ok).
  apply bind_Ok in H as (d1 & H1 & (d2 & H2 & H3)%bind_Ok).
  eapply writes_labels_mono;
    [eapply (coerce_numeric_writes ["fatalities_crew"]), H3; apply list_elem_of_here|].
  eapply writes_labels_mono;
    [eapply (coerce_numeric_writes ["fatalities_passengers"]), H2; apply list_elem_of_here|].
  eapply writes_labels_mono;
    [eapply (coerce_numeric_writes ["fatalities_total"]), H1; apply list_elem_of_here|].
  do 2 apply labels_set_column_mono. apply labels_set_column_self.
Qed.

(** A table whose labels are canonical names of themselves is renamed to
    itself. *)
Lemma normalize_columns_fixed df :
  (∀ l, l ∈ labels df → normalize_header l = l) → normalize_columns df = df.
Proof.
  intros Hfix. rewrite normalize_columns_eq.
  assert (Hcols : prod_map normalize_header id <$> columns df = columns df).
  { rewrite <- (list_fmap_id (columns df)) at 2. apply list_fmap_ext.
    intros i [l x] Hi. unfold prod_map. simpl. f_equal. apply Hfix.
    apply list_elem_of_lookup_2 in Hi. by apply elem_of_labels in Hi. }
  rewrite Hcols. by destruct df.
Qed.

(** *** When the pass completes *)


Lemma length_filter_set_column name v df src :
  at_most_once src df → at_most_once src (set_column name v df).
Proof.
  unfold at_most_once. destruct (decide (src = name)) as [->|Hne];
    [|by rewrite filter_set_column_other].
  rewrite length_filter_set_column_self. by destruct (has_column name df).
Qed.

Lemma writes_at_most_once T df df' name :
  writes T df df' → at_most_once name df → at_most_once name df'.
Proof. induction 1; [done|]. intros. apply length_filter_set_column. auto. Qed.










End FrameFacts.

(** ** ColumnNormalizer on a table *)

(** C7, as the code has it.  [normalize_columns] never raises and keeps
    every column: the same number of columns, each at its place with its
    values, under the canonical name of its header.  Two headers with one
    canonical name give two columns of that name, both with their values. *)
Theorem C7_rename_keeps_every_column {P} (df : DataFrame P) :
  nrows (normalize_columns df) = nrows df ∧
  length (columns (normalize_columns df)) = length (columns df) ∧
  ∀ i j l1 l2 x1 x2,
    columns df !! i = Some (l1, x1) → columns df !! j = Some (l2, x2) →
    normalize_header l1 = normalize_header l2 →
    columns (normalize_columns df) !! i = Some (normalize_header l1, x1) ∧
    columns (normalize_columns df) !! j = Some (normalize_header l1, x2).
Proof.
  split_and!.
  - by rewrite normalize_columns_eq.
  - apply length_normalize_columns.
  - intros i j l1 l2 x1 x2 Hi Hj Heq.
    rewrite (lookup_normalize_columns _ _ _ _ Hi).
    by rewrite (lookup_normalize_columns _ _ _ _ Hj), Heq.
Qed.

Lemma C7_rename_keeps_every_column_witness :
  let df := normalize_columns
              (@raw_table digits_only ["Date"; "Route"; " date"] [["1/1/2000"; "A - B"; "x"]]) in
  columns df !! 0%nat = Some ("date", [Str "1/1/2000"]) ∧
  columns df !! 2%nat = Some ("date", [Str "x"]).
Proof.
  exact (proj2 (proj2 (C7_rename_keeps_every_column
    (@raw_table digits_only ["Date"; "Route"; " date"] [["1/1/2000"; "A - B"; "x"]])))
    0%nat 2%nat "Date" " date" [Str "1/1/2000"] [Str "x"] eq_refl eq_refl eq_refl).
Defined.

(** The claim as written fails: with the headers ["Date"] and [" date"] the
    renamed table has two columns named [date], the earlier one with its
    own values. *)
Lemma C7_counterexample :
  let df := normalize_columns
              (@raw_table digits_only ["Date"; " date"] [["1/1/2000"; "x"]]) in
  columns df = [("date", [Str "1/1/2000"]); ("date", [Str "x"])] ∧
  ¬ NoDup (labels df).
Proof.
  split; [reflexivity|]. intros H.
  apply (NoDup_cons_1_1 "date" ["date"]) in H. apply H, list_elem_of_here.
Qed.


(** ** DatasetCleaner: rows and raw columns *)


Lemma clean_sample_table : clean_dataset sample_table = Ok sample_table_clean.
Proof. reflexivity. Qed.



(** An original column named as a derived column is replaced by it,
    whatever the converters. *)
Lemma derived_column_replaces_original {P} :
  clean_dataset (@raw_table P ["Time"; "Time Raw"] [["1200"; "kept?"]])
  = Ok {| nrows := 1;
          columns := [("time", [Str "1200"]); ("time_raw", [Str "1200"]);
                      ("time_hhmm", [Str "12:00"])] |}.
Proof. reflexivity. Qed.

(** ** Runs of the pass on the example tables *)

Lemma clean_times_table : clean_dataset times_table = Ok times_table_clean.
Proof. reflexivity. Qed.

Lemma clean_fatalities_table :
  clean_dataset fatalities_table = Ok fatalities_table_clean.
Proof. reflexivity. Qed.

Lemma clean_ground_table : clean_dataset ground_table = Ok ground_table_clean.
Proof. reflexivity. Qed.

Lemma clean_ground_table_again :
  clean_dataset ground_table_clean = Ok ground_table_again.
Proof. reflexivity. Qed.

(** A cleaned table without fatalities on which the second pass raises. *)
Lemma clean_grounds_table :
  clean_dataset grounds_table = Ok grounds_table_clean ∧
  ("fatalities" ∉ labels grounds_table_clean) ∧
  clean_dataset grounds_table_clean = Raise TypeError.
Proof.
  split_and!; [reflexivity| |reflexivity].
  change (labels grounds_table_clean) with ["ground"; "ground"].
  rewrite !elem_of_cons, elem_of_nil. intros H. destruct_or!; done.
Qed.

(** Two columns under a derived label, in a table of two rows. *)
Lemma clean_repeated_table :
  clean_dataset repeated_table = Ok repeated_table_clean.
Proof. reflexivity. Qed.

(** * Further properties of the code *)

(** ** [parse_fatalities] *)






Lemma int_nonneg g n : Py.int g = Ok n → (0 ≤ n)%Z.
Proof.
  unfold Py.int. destruct g as [|a g]; [done|]. cbv iota.
  destruct (Py.all_chars _ _) eqn:H; [|discriminate]. intros [= <-].
  apply (PyFacts.digits_value_nonneg _ 0%Z H). lia.
Qed.

Lemma count_of_capture_nonneg m n :
  count_of_capture m = Ok (Some n) → (0 ≤ n)%Z.
Proof.
  destruct m as [g|]; [|discriminate]. simpl.
  destruct (String.eqb g "?"); [discriminate|].
  destruct (Py.int g) eqn:Hg; [|discriminate]. intros [= <-]. by eapply int_nonneg.
Qed.

(** X2. The counts [parse_fatalities] returns are never negative. *)
Theorem X2_parse_fatalities_nonnegative text total pax crew :
  parse_fatalities text = Ok (total, pax, crew) →
  ∀ n, (total = Some n ∨ pax = Some n ∨ crew = Some n) → (0 ≤ n)%Z.
Proof.
  destruct text as [s|]; [|by intros [= <- <- <-] n [|[|]]].
  unfold parse_fatalities.
  intros (t & Ht & (p & Hp & (c & Hc & [= <- <- <-])%bind_Ok)%bind_Ok)%bind_Ok n Hn.
  destruct Hn as [->|[->| ->]].
  - destruct (Py.search_digits s); [|done].
    destruct (Py.int s0) eqn:Hi; [|done]. injection Ht as <-. by eapply int_nonneg.
  - by eapply count_of_capture_nonneg.
  - by eapply count_of_capture_nonneg.
Qed.

Lemma X2_parse_fatalities_nonnegative_witness :
  parse_fatalities (Some "22   (passengers:3  crew:?)")
    = Ok (Some 22%Z, Some 3%Z, None) ∧ (0 ≤ 3)%Z.
Proof.
  split; [reflexivity|].
  apply (X2_parse_fatalities_nonnegative (Some "22   (passengers:3  crew:?)")
           (Some 22%Z) (Some 3%Z) None eq_refl 3%Z).
  right. by left.
Defined.

Lemma lower_char_idem c : Py.lower_char (Py.lower_char c) = Py.lower_char c.
Proof. PyFacts.by_cases_on_char c. Qed.

Lemma digit_lower_char c : Py.is_digit (Py.lower_char c) = Py.is_digit c.
Proof. PyFacts.by_cases_on_char c. Qed.

Lemma digit_lower_char_eq c : Py.is_digit c = true → Py.lower_char c = c.
Proof. PyFacts.by_cases_on_char c. Qed.

Lemma capture_lower_char c :
  Py.is_digit_or_qmark (Py.lower_char c) = Py.is_digit_or_qmark c.
Proof. PyFacts.by_cases_on_char c. Qed.

Lemma capture_lower_char_eq c :
  Py.is_digit_or_qmark c = true → Py.lower_char c = c.
Proof. PyFacts.by_cases_on_char c. Qed.

Lemma drop_while_lower_class p s :
  (∀ c, p (Py.lower_char c) = p c) →
  Py.drop_while p (Py.lower s) = Py.lower (Py.drop_while p s).
Proof.
  intros Hp. induction s as [|c s IH]; simpl; [done|].
  rewrite Hp. by destruct (p c).
Qed.

Lemma take_while_lower_class p s :
  (∀ c, p (Py.lower_char c) = p c) →
  (∀ c, p c = true → Py.lower_char c = c) →
  Py.take_while p (Py.lower s) = Py.take_while p s.
Proof.
  intros Hp Hfix. induction s as [|c s IH]; simpl; [done|].
  rewrite Hp. destruct (p c) eqn:Hc; [|done]. by rewrite IH, Hfix.
Qed.

Lemma search_digits_lower s : Py.search_digits (Py.lower s) = Py.search_digits s.
Proof.
  unfold Py.search_digits.
  rewrite drop_while_lower_class by (intros; by rewrite digit_lower_char).
  by rewrite take_while_lower_class
    by auto using digit_lower_char, digit_lower_char_eq.
Qed.

Lemma match_literal_ci_lower lit : ∀ s,
  Py.match_literal_ci lit (Py.lower s) = Py.lower <$> Py.match_literal_ci lit s.
Proof.
  induction lit as [|a lit IH]; intros s; [done|].
  destruct s as [|c s]; [done|]. simpl. rewrite lower_char_idem.
  destruct (Ascii.eqb (Py.lower_char c) a); [apply IH|done].
Qed.

Lemma match_labelled_lower label s :
  Py.match_labelled label (Py.lower s) = Py.match_labelled label s.
Proof.
  unfold Py.match_labelled. rewrite match_literal_ci_lower.
  destruct (Py.match_literal_ci label s) as [rest|]; [|done]. simpl.
  rewrite PyFacts.drop_while_lower.
  by rewrite take_while_lower_class
    by auto using capture_lower_char, capture_lower_char_eq.
Qed.

Lemma search_labelled_lower label s :
  Py.search_labelled label (Py.lower s) = Py.search_labelled label s.
Proof.
  induction s as [|c s IH].
  - done.
  - change (Py.lower (String c s)) with (String (Py.lower_char c) (Py.lower s)).
    change (Py.search_labelled label (String (Py.lower_char c) (Py.lower s)))
      with (match Py.match_labelled label (Py.lower (String c s)) with
            | Some g => Some g
            | None => Py.search_labelled label (Py.lower s)
            end).
    by rewrite match_labelled_lower, IH.
Qed.

(** X3. [parse_fatalities] does not look at letter case: two texts that are
    equal once in lower case give the same outcome. *)
Theorem X3_parse_fatalities_ignores_case s s' :
  Py.lower s = Py.lower s' →
  parse_fatalities (Some s) = parse_fatalities (Some s').
Proof.
  intros H. unfold parse_fatalities.
  rewrite <- (search_digits_lower s), <- (search_digits_lower s').
  rewrite <- !(search_labelled_lower _ s), <- !(search_labelled_lower _ s').
  by rewrite H.
Qed.

Lemma X3_parse_fatalities_ignores_case_witness :
  parse_fatalities (Some "3 (PASSENGERS: 2 Crew:1)")
  = parse_fatalities (Some "3 (passengers: 2 crew:1)").
Proof. apply X3_parse_fatalities_ignores_case. reflexivity. Defined.

(** ** [split_location] *)

Lemma drop_while_all p s : Py.all_chars p s = true → Py.drop_while p s = "".
Proof.
  induction s as [|c s IH]; simpl; [done|].
  destruct (p c); simpl; [auto|discriminate].
Qed.

Lemma drop_while_empty_all p s : Py.drop_while p s = "" → Py.all_chars p s = true.
Proof.
  induction s as [|c s IH]; simpl; [done|].
  destruct (p c); simpl; [auto|discriminate].
Qed.

Lemma all_chars_drop_while_empty p s :
  Py.all_chars p (Py.drop_while p s) = true → Py.drop_while p s = "".
Proof.
  induction s as [|c s IH]; simpl; [done|].
  destruct (p c) eqn:Hc; [auto|]. simpl. by rewrite Hc.
Qed.

Lemma strip_empty_iff s :
  Py.strip s = "" ↔ Py.all_chars Py.is_space s = true.
Proof.
  unfold Py.strip, Py.strip_by. split.
  - intros H%PyFacts.drop_end_empty_all%all_chars_drop_while_empty.
    by apply drop_while_empty_all.
  - intros H. by rewrite drop_while_all.
Qed.

Lemma blank_parts L :
  filter (λ p, p ≠ "") (Py.strip <$> L) = []
  ↔ forallb (Py.all_chars Py.is_space) L = true.
Proof.
  induction L as [|q L IH]; [done|]. rewrite fmap_cons, filter_cons. simpl.
  rewrite andb_true_iff, <- IH, <- strip_empty_iff.
  destruct (decide (Py.strip q ≠ "")) as [Hne|He]; [by intuition|].
  apply dec_stable in He. tauto.
Qed.

Lemma forallb_split_blank s :
  forallb (Py.all_chars Py.is_space) (Py.split "," s)
  = Py.all_chars blank_or_comma s.
Proof.
  induction s as [|c s IH]; [done|]. simpl. unfold blank_or_comma at 1.
  destruct (Ascii.eqb_spec c ",") as [->|Hne].
  - simpl. by rewrite IH.
  - rewrite orb_false_r, <- IH.
    destruct (PyFacts.split_cons "," s) as (q & qs & ->). simpl.
    by rewrite andb_assoc.
Qed.

Lemma location_parts_nil l :
  location_parts l = [] ↔ Py.all_chars blank_or_comma l = true.
Proof. unfold location_parts. by rewrite blank_parts, forallb_split_blank. Qed.

(** X4. [split_location] raises exactly on a text that has a comma and is
    made of commas and blanks only, and what it raises is an [IndexError];
    on any other input it returns a triple. *)
Theorem X4_split_location_raises_exactly loc e :
  split_location loc = Raise e ↔
  e = IndexError ∧
  ∃ l, loc = Some l ∧ Py.contains "," l = true ∧
       Py.all_chars blank_or_comma l = true.
Proof.
  destruct loc as [l|]; [|split; [done|by intros (_ & l & [=] & _)]].
  destruct (Py.contains "," l) eqn:Hc.
  - rewrite split_location_comma by done.
    destruct (location_parts l) as [|p0 [|p1 [|p2 ps]]] eqn:Hp.
    + apply location_parts_nil in Hp. split.
      * intros [= <-]. eauto.
      * by intros [-> _].
    + split; [done|]. intros (_ & l' & [= <-] & _ & Hall%location_parts_nil).
      congruence.
    + split; [by destruct (bool_decide _)|].
      intros (_ & l' & [= <-] & _ & Hall%location_parts_nil). congruence.
    + split.
      * destruct (last (p2 :: ps)) eqn:Hl; [done|].
        by apply last_None in Hl.
      * intros (_ & l' & [= <-] & _ & Hall%location_parts_nil). congruence.
  - rewrite split_location_no_comma by done. split.
    + by destruct (existsb _ _).
    + intros (_ & l' & [= <-] & Hc' & _). congruence.
Qed.

Lemma X4_split_location_raises_exactly_witness :
  split_location (Some " ,, , ") = Raise IndexError.
Proof.
  apply X4_split_location_raises_exactly. split; [done|].
  exists " ,, , ". by split_and!.
Defined.

Lemma location_parts_elem l p :
  p ∈ location_parts l → p ≠ "" ∧ Py.strip p = p.
Proof.
  unfold location_parts.
  intros [Hne (q & -> & _)%list_elem_of_fmap]%list_elem_of_filter.
  split; [done|]. apply PyFacts.strip_idem.
Qed.

(** X5. On a text with a character that is not a blank, every field
    [split_location] returns is null or a text that is not empty and has no
    blank at either end. *)
Theorem X5_location_fields_trimmed l city state country :
  Py.strip l ≠ "" →
  split_location (Some l) = Ok (city, state, country) →
  ∀ x, city = Some x ∨ state = Some x ∨ country = Some x →
       x ≠ "" ∧ Py.strip x = x.
Proof.
  intros Hl. destruct (Py.contains "," l) eqn:Hc.
  - rewrite split_location_comma by done.
    pose proof (location_parts_elem l) as Hel.
    destruct (location_parts l) as [|p0 [|p1 [|p2 ps]]]; [done|..].
    + intros [= <- <- <-] x [[= <-]|[|]]; [|done..].
      apply Hel, list_elem_of_here.
    + assert (H0 : p0 ≠ "" ∧ Py.strip p0 = p0) by apply Hel, list_elem_of_here.
      assert (H1 : p1 ≠ "" ∧ Py.strip p1 = p1)
        by apply Hel, list_elem_of_further, list_elem_of_here.
      destruct (bool_decide _); intros [= <- <- <-] x Hx;
        destruct Hx as [Hx|[Hx|Hx]]; try done; by injection Hx as <-.
    + assert (H0 : p0 ≠ "" ∧ Py.strip p0 = p0) by apply Hel, list_elem_of_here.
      assert (H1 : p1 ≠ "" ∧ Py.strip p1 = p1)
        by apply Hel, list_elem_of_further, list_elem_of_here.
      destruct (last (p2 :: ps)) as [z|] eqn:Hz; [|done].
      assert (Hzin : z ∈ p0 :: p1 :: p2 :: ps).
      { do 2 apply list_elem_of_further. apply last_Some in Hz as [l' ->].
        rewrite elem_of_app, list_elem_of_singleton. tauto. }
      intros [= <- <- <-] x Hx.
      destruct Hx as [Hx|[Hx|Hx]]; injection Hx as <-; auto.
  - rewrite split_location_no_comma by done.
    destruct (existsb _ _); intros [= <- <- <-] x Hx;
      destruct Hx as [Hx|[Hx|Hx]]; try done; injection Hx as <-;
      (split; [done|apply PyFacts.strip_idem]).
Qed.

Lemma X5_location_fields_trimmed_witness :
  "Rhone" ≠ "" ∧ Py.strip "Rhone" = "Rhone".
Proof.
  apply (X5_location_fields_trimmed " Lyon ,  Rhone , France"
           (Some "Lyon") (Some "Rhone") (Some "France")); [done|reflexivity|].
  right. by left.
Defined.

(** ** [_parse_time] *)

Lemma parse_time_clock t :
  _parse_time (Some t) = Ok (clock_of_digits (Py.remove_non_digits t)).
Proof.
  rewrite parse_time_refines. f_equal. unfold TimeParser.
  destruct (String.eqb t "" || String.eqb t "?") eqn:E; [|done].
  apply orb_prop in E as [->%String.eqb_eq| ->%String.eqb_eq]; reflexivity.
Qed.

(** X6. [_parse_time] reads the digits of the text and nothing else: two
    texts with the same digits in the same order give the same time. *)
Theorem X6_parse_time_reads_digits_only t t' :
  Py.remove_non_digits t = Py.remove_non_digits t' →
  _parse_time (Some t) = _parse_time (Some t').
Proof. intros H. by rewrite !parse_time_clock, H. Qed.

Lemma X6_parse_time_reads_digits_only_witness :
  _parse_time (Some "c 17:18 Z") = _parse_time (Some "1718").
Proof. apply X6_parse_time_reads_digits_only. reflexivity. Defined.

Lemma all_chars_app p a b :
  Py.all_chars p (a +:+ b) = Py.all_chars p a && Py.all_chars p b.
Proof. induction a as [|c a IH]; simpl; [done|]. by rewrite IH, andb_assoc. Qed.

Lemma filter_chars_all p s : Py.all_chars p s = true → Py.filter_chars p s = s.
Proof.
  induction s as [|c s IH]; simpl; [done|].
  destruct (p c); simpl; [|discriminate]. intros H. by rewrite IH.
Qed.

Lemma length_app_string (a b : string) :
  String.length (a +:+ b) = (String.length a + String.length b)%nat.
Proof. induction a as [|c a IH]; simpl; [done|]. by rewrite IH. Qed.

Lemma substring_whole (b : string) : substring 0 (String.length b) b = b.
Proof. induction b as [|c b IH]; simpl; [done|]. by rewrite IH. Qed.

Lemma substring_app_suffix (a b : string) :
  substring (String.length a) (String.length b) (a +:+ b) = b.
Proof. induction a as [|c a IH]; simpl; [apply substring_whole|done]. Qed.

(** X7. When the text has more than four digits, [_parse_time] reads the
    last four: the digits before them change nothing. *)
Theorem X7_parse_time_last_four_digits t d1 d :
  Py.remove_non_digits t = d1 +:+ d → String.length d = 4%nat →
  _parse_time (Some t) = _parse_time (Some d).
Proof.
  intros Ht Hd. rewrite !parse_time_clock, Ht.
  pose proof (PyFacts.all_chars_filter Py.is_digit t) as Hall.
  fold (Py.remove_non_digits t) in Hall.
  rewrite Ht, all_chars_app in Hall. apply andb_prop in Hall as [_ Hall].
  unfold Py.remove_non_digits. rewrite (filter_chars_all _ _ Hall).
  destruct d1 as [|c d1]; [done|]. f_equal.
  unfold clock_of_digits. rewrite length_app_string, Hd. simpl String.length.
  replace (S (String.length d1) + 4 <=? 2)%nat with false
    by (symmetry; apply Nat.leb_gt; lia).
  replace (S (String.length d1) + 4 =? 3)%nat with false
    by (symmetry; apply Nat.eqb_neq; lia).
  replace (4 <? S (String.length d1) + 4)%nat with true
    by (symmetry; apply Nat.ltb_lt; lia).
  replace (S (String.length d1) + 4 - 4)%nat with (String.length (String c d1))
    by (simpl; lia).
  pose proof (substring_app_suffix (String c d1) d) as E. rewrite Hd in E.
  rewrite E. reflexivity.
Qed.

Lemma X7_parse_time_last_four_digits_witness :
  _parse_time (Some "2001-09-11 08:46") = _parse_time (Some "0846").
Proof.
  apply (X7_parse_time_last_four_digits _ "20010911" "0846"); reflexivity.
Defined.

Lemma is_digit_cases a :
  Py.is_digit a = true →
  In a ["0"; "1"; "2"; "3"; "4"; "5"; "6"; "7"; "8"; "9"]%char.
Proof.
  destruct a as [[] [] [] [] [] [] [] []]; vm_compute; intros H;
    try discriminate H; auto 12.
Qed.

Lemma two_digits_value a b :
  Py.is_digit a = true → Py.is_digit b = true →
  two_digits (Py.digits_value 0 (String a (String b ""))) = String a (String b "").
Proof.
  intros Ha%is_digit_cases Hb%is_digit_cases. simpl in Ha, Hb.
  destruct_or!; subst; try done; reflexivity.
Qed.

(** X8. Four digits that are a time of the day come back with a colon in
    the middle, the same digits in the same order; four digits that are not
    (hour above 23 or minute above 59) give null; and three digits are read
    as the four digits with a zero in front. *)
Theorem X8_parse_time_keeps_the_digits a b c d :
  Py.is_digit a = true → Py.is_digit b = true →
  Py.is_digit c = true → Py.is_digit d = true →
  _parse_time (Some (String a (String b (String c (String d "")))))
  = Ok (if ((Py.digits_value 0 (String a (String b "")) <=? 23)
            && (Py.digits_value 0 (String c (String d "")) <=? 59))%Z
        then Some (String a (String b (String ":" (String c (String d "")))))
        else None) ∧
  _parse_time (Some (String b (String c (String d ""))))
  = _parse_time (Some (String "0" (String b (String c (String d ""))))).
Proof.
  intros Ha Hb Hc Hd. rewrite !parse_time_clock. unfold Py.remove_non_digits.
  rewrite !filter_chars_all by (simpl; by rewrite ?Ha, ?Hb, ?Hc, ?Hd).
  split; [|done]. f_equal.
  set (hh := Py.digits_value 0 (String a (String b ""))).
  set (mm := Py.digits_value 0 (String c (String d ""))).
  change (clock_of_digits (String a (String b (String c (String d "")))))
    with (if ((23 <? hh) || (59 <? mm))%Z then None
          else Some (two_digits hh +:+ ":" +:+ two_digits mm)).
  subst hh mm. rewrite !two_digits_value by done.
  rewrite (Z.ltb_antisym _ 23), (Z.ltb_antisym _ 59).
  by destruct (_ <=? 23)%Z, (_ <=? 59)%Z.
Qed.

Lemma X8_parse_time_keeps_the_digits_witness :
  _parse_time (Some "1718") = Ok (Some "17:18") ∧
  _parse_time (Some "718") = _parse_time (Some "0718").
Proof.
  exact (X8_parse_time_keeps_the_digits "1" "7" "1" "8"
           eq_refl eq_refl eq_refl eq_refl).
Defined.

Lemma clock_texts_fixed :
  forallb (λ h, forallb (λ m,
      let r := two_digits (Z.of_nat h) +:+ ":" +:+ two_digits (Z.of_nat m) in
      match _parse_time (Some r) with
      | Ok (Some r') => String.eqb r' r
      | _ => false
      end) (seq 0 60)) (seq 0 24) = true.
Proof. vm_compute. reflexivity. Qed.

(** X9. A time [_parse_time] has produced is read back as itself: parsing
    its output again changes nothing. *)
Theorem X9_parse_time_idempotent t r :
  _parse_time t = Ok (Some r) → _parse_time (Some r) = Ok (Some r).
Proof.
  rewrite parse_time_refines. intros [= Hr].
  destruct (time_parser_shape t) as [Hn|(hh & mm & Hh & Hm & Hs)]; [congruence|].
  assert (r = two_digits hh +:+ ":" +:+ two_digits mm) as -> by congruence.
  pose proof clock_texts_fixed as H. rewrite forallb_forall in H.
  assert (H1 := H (Z.to_nat hh) ltac:(apply in_seq; lia)).
  rewrite forallb_forall in H1.
  assert (H2 := H1 (Z.to_nat mm) ltac:(apply in_seq; lia)).
  cbv zeta in H2. rewrite !Z2Nat.id in H2 by lia.
  destruct (_parse_time _) as [[r'|]|]; try discriminate H2.
  by apply String.eqb_eq in H2 as ->.
Qed.

Lemma X9_parse_time_idempotent_witness :
  _parse_time (Some "07:00") = Ok (Some "07:00").
Proof. apply (X9_parse_time_idempotent (Some "700")). reflexivity. Defined.

(** ** [normalize_columns]: the names it gives *)

Lemma snake_of_lowered c :
  Py.is_alnum (Py.lower_char c) = true → snake_char (Py.lower_char c) = true.
Proof. PyFacts.by_cases_on_char c. Qed.

Lemma alnum_not_underscore c : Py.is_alnum c = true → Ascii.eqb "_" c = false.
Proof. PyFacts.by_cases_on_char c. Qed.

Lemma underscore_not_alnum c : Ascii.eqb "_" c = true → Py.is_alnum c = false.
Proof. PyFacts.by_cases_on_char c. Qed.

Lemma sub_non_alnum_snake x : ∀ f,
  Py.all_chars snake_char (Py.sub_non_alnum f (Py.lower x)) = true.
Proof.
  induction x as [|c x IH]; intros f; simpl; [done|].
  destruct (Py.is_alnum (Py.lower_char c)) eqn:Hc; simpl.
  - by rewrite snake_of_lowered, IH.
  - destruct f; [apply IH|]. simpl. apply IH.
Qed.

Lemma all_chars_drop_while p q s :
  Py.all_chars p s = true → Py.all_chars p (Py.drop_while q s) = true.
Proof.
  induction s as [|c s IH]; simpl; [done|]. intros [Hc Hs]%andb_prop.
  destruct (q c); [auto|]. simpl. by rewrite Hc, Hs.
Qed.

Lemma all_chars_drop_end p q s :
  Py.all_chars p s = true → Py.all_chars p (Py.drop_end q s) = true.
Proof.
  induction s as [|c s IH]; simpl; [done|]. intros [Hc Hs]%andb_prop.
  specialize (IH Hs). destruct (Py.drop_end q s) as [|b r].
  - destruct (q c); simpl; [done|]. by rewrite Hc.
  - remember (String b r) as r0. simpl. by rewrite Hc, IH.
Qed.

Lemma strip_by_idem q s : Py.strip_by q (Py.strip_by q s) = Py.strip_by q s.
Proof.
  unfold Py.strip_by.
  by rewrite <- (PyFacts.drop_end_drop_while q (Py.drop_while q s)),
    PyFacts.drop_while_idem, PyFacts.drop_end_idem.
Qed.

Lemma filter_alnum_sub s : ∀ f,
  Py.filter_chars Py.is_alnum (Py.sub_non_alnum f s) = Py.filter_chars Py.is_alnum s.
Proof.
  induction s as [|c s IH]; intros f; simpl; [done|].
  destruct (Py.is_alnum c) eqn:Hc; simpl.
  - by rewrite Hc, IH.
  - destruct f; [apply IH|]. simpl. apply IH.
Qed.

Lemma filter_alnum_fallback h :
  Py.filter_chars Py.is_alnum
    (Py.strip_by (Ascii.eqb "_") (Py.sub_non_alnum false h))
  = Py.filter_chars Py.is_alnum h.
Proof.
  unfold Py.strip_by.
  rewrite PyFacts.filter_chars_drop_end, PyFacts.filter_chars_drop_while
    by apply underscore_not_alnum.
  apply filter_alnum_sub.
Qed.

(** What is found in a stripped text is found in the text. *)
Lemma contains_drop_while_imp w q s :
  Py.contains w (Py.drop_while q s) = true → Py.contains w s = true.
Proof.
  induction s as [|c s IH]; [done|]. simpl Py.drop_while.
  destruct (q c); [|done]. intros H%IH.
  rewrite PyFacts.contains_cons, H. apply orb_true_r.
Qed.

Lemma prefix_drop_end_imp q s : ∀ w,
  String.prefix w (Py.drop_end q s) = true → String.prefix w s = true.
Proof.
  induction s as [|c s IH]; intros w; [done|].
  destruct w as [|a w]; [done|]. simpl Py.drop_end.
  specialize (IH w). destruct (Py.drop_end q s) as [|b r].
  - destruct (q c); [done|]. rewrite !PyFacts.prefix_cons.
    destruct (ascii_dec a c); [|done]. destruct w; [|done].
    intros _. apply PyFacts.prefix_empty.
  - rewrite !PyFacts.prefix_cons. destruct (ascii_dec a c); [apply IH|done].
Qed.

Lemma contains_drop_end_imp w q s :
  Py.contains w (Py.drop_end q s) = true → Py.contains w s = true.
Proof.
  induction s as [|c s IH]; [done|].
  rewrite PyFacts.contains_cons. intros H. apply orb_true_iff.
  destruct (String.prefix w (String c s)) eqn:Hp; [by left|right].
  apply IH. simpl Py.drop_end in H.
  destruct (Py.drop_end q s) as [|b r] eqn:Hr.
  - destruct w as [|a w].
    + done.
    + exfalso. assert (Hpre : String.prefix (String a w) (Py.drop_end q (String c s)) = true).
      { simpl Py.drop_end. rewrite Hr.
        destruct (q c); simpl in H |- *; [done|].
        by rewrite orb_false_r in H. }
      apply prefix_drop_end_imp in Hpre. congruence.
  - rewrite PyFacts.contains_cons in H. apply orb_true_iff in H as [H|H]; [|done].
    exfalso.
    assert (Hpre : String.prefix w (Py.drop_end q (String c s)) = true)
      by (simpl Py.drop_end; by rewrite Hr).
    apply prefix_drop_end_imp in Hpre. congruence.
Qed.

Lemma contains_strip_by_imp w q s :
  Py.contains w (Py.strip_by q s) = true → Py.contains w s = true.
Proof. by intros H%contains_drop_end_imp%contains_drop_while_imp. Qed.

(** No two underscores in a row after the substitution, and none in front
    when the run has begun. *)
Lemma sub_non_alnum_single s : ∀ f,
  Py.contains "__" (Py.sub_non_alnum f s) = false ∧
  (f = true → String.prefix "_" (Py.sub_non_alnum f s) = false).
Proof.
  induction s as [|c s IH]; intros f; [by destruct f|].
  simpl Py.sub_non_alnum. destruct (Py.is_alnum c) eqn:Hc.
  - destruct (IH false) as [IH1 _].
    rewrite PyFacts.contains_cons, !PyFacts.prefix_cons, IH1.
    pose proof (alnum_not_underscore c Hc) as Hne.
    destruct (ascii_dec "_" c) as [<-|]; [done|]. done.
  - destruct (IH true) as [IH1 IH2]. destruct f; [by auto|].
    split; [|done].
    rewrite PyFacts.contains_cons, PyFacts.prefix_cons, IH1.
    destruct (ascii_dec "_" "_"); [|done]. by rewrite IH2.
Qed.

Ltac split_name_tests :=
  repeat match goal with
         | |- context [if ?b then _ else _] => destruct b eqn:?
         end.

(** X10. The name [normalize_columns] gives a header is in snake case: made
    of digits, lower-case letters and underscores, not empty, with no
    underscore at either end and no two underscores in a row.  The one
    exception is a header without any letter or digit, which keeps its
    trimmed, lower-cased text. *)
Theorem X10_names_are_snake_case col :
  (Py.all_chars snake_char (canonical_name col) = true ∧
   canonical_name col ≠ "" ∧
   Py.strip_by (Ascii.eqb "_") (canonical_name col) = canonical_name col ∧
   Py.contains "__" (canonical_name col) = false)
  ∨ (Py.filter_chars Py.is_alnum (Py.lower (Py.strip col)) = "" ∧
     canonical_name col = Py.lower (Py.strip col)).
Proof.
  unfold canonical_name. cbv zeta.
  set (key := Py.lower (Py.strip col)).
  set (tmp := Py.strip_by (Ascii.eqb "_") (Py.sub_non_alnum false key)).
  destruct (String.eqb tmp "") eqn:Htmp.
  - split_name_tests; try (left; by split_and!).
    right. split; [|done]. apply String.eqb_eq in Htmp.
    rewrite <- (filter_alnum_fallback key). fold tmp. by rewrite Htmp.
  - split_name_tests; try (left; by split_and!).
    left. apply String.eqb_neq in Htmp. split_and!.
    + apply all_chars_drop_end, all_chars_drop_while, sub_non_alnum_snake.
    + done.
    + apply strip_by_idem.
    + apply not_true_is_false. intros H%contains_strip_by_imp.
      by rewrite (proj1 (sub_non_alnum_single key false)) in H.
Qed.

(** X11. Headers that differ only in letter case and in the blanks around
    them get the same name, whichever rule names them. *)
Theorem X11_header_case_and_blanks ws1 ws2 h h' :
  Py.all_chars Py.is_space ws1 = true → Py.all_chars Py.is_space ws2 = true →
  Py.lower h' = Py.lower h →
  normalize_header (ws1 +:+ h' +:+ ws2) = normalize_header h.
Proof.
  intros H1 H2 Hh. unfold normalize_header.
  rewrite !canonical_name_rules, (header_key _ _ h) by done.
  by rewrite PyFacts.strip_idem.
Qed.

Lemma X11_header_case_and_blanks_witness :
  normalize_header (" " +:+ "AC  Type" +:+ "  ") = normalize_header "ac  type".
Proof. by apply X11_header_case_and_blanks. Defined.

Lemma prefix_sub_non_alnum_imp s : ∀ w,
  Py.all_chars Py.is_alnum w = true →
  String.prefix w (Py.sub_non_alnum false s) = true → String.prefix w s = true.
Proof.
  induction s as [|c s IH]; intros w Hw; [done|].
  destruct w as [|a w]; [done|]. simpl in Hw. apply andb_prop in Hw as [Ha Hw].
  simpl Py.sub_non_alnum. destruct (Py.is_alnum c) eqn:Hc.
  - rewrite !PyFacts.prefix_cons. destruct (ascii_dec a c); [by apply IH|done].
  - rewrite !PyFacts.prefix_cons. destruct (ascii_dec a c) as [->|]; [congruence|].
    destruct (ascii_dec a "_") as [->|]; [|done]. done.
Qed.

Lemma contains_sub_non_alnum_imp w s : ∀ f,
  Py.all_chars Py.is_alnum w = true → w ≠ "" →
  Py.contains w (Py.sub_non_alnum f s) = true → Py.contains w s = true.
Proof.
  intros f Hw Hne. revert f.
  induction s as [|c s IH]; intros f; [by destruct w|].
  rewrite PyFacts.contains_cons. simpl Py.sub_non_alnum.
  destruct (Py.is_alnum c) eqn:Hc.
  - rewrite PyFacts.contains_cons. intros [H|H]%orb_true_iff.
    + assert (Hp : String.prefix w (Py.sub_non_alnum false (String c s)) = true)
        by (simpl; by rewrite Hc).
      apply prefix_sub_non_alnum_imp in Hp; [|done]. by rewrite Hp.
    + rewrite (IH false H). apply orb_true_r.
  - destruct f.
    + intros H. rewrite (IH true H). apply orb_true_r.
    + rewrite PyFacts.contains_cons. intros [H|H]%orb_true_iff.
      * exfalso. destruct w as [|a w]; [done|]. simpl in Hw.
        apply andb_prop in Hw as [Ha _]. rewrite PyFacts.prefix_cons in H.
        destruct (ascii_dec a "_") as [->|]; done.
      * rewrite (IH true H). apply orb_true_r.
Qed.

Lemma contains_fallback_imp w h :
  Py.all_chars Py.is_alnum w = true → w ≠ "" →
  Py.contains w (fallback_name h) = true → Py.contains w h = true.
Proof.
  intros Hw Hne. unfold fallback_name. destruct (String.eqb _ ""); [done|].
  intros H%contains_strip_by_imp. by eapply contains_sub_non_alnum_imp.
Qed.

(** The names with ["fatalit"] in them. *)
Lemma fatalit_names col :
  Py.contains "fatalit" (canonical_name col) = true →
  canonical_name col = "fatalities" ∨ canonical_name col = "ground_fatalities".
Proof.
  unfold canonical_name. cbv zeta.
  set (key := Py.lower (Py.strip col)).
  fold (fallback_name key).
  split_name_tests; try (by intros [=]); try (by left); try (by right).
  intros H%contains_fallback_imp; [congruence|done..].
Qed.

(** X12. No header is named [fatalities_total], [fatalities_passengers] or
    [fatalities_crew]: a header with ["fatalit"] in it is named by one of the
    rules.  So the three columns the fatalities block derives are always new
    columns of the table. *)
Theorem X12_fatalities_columns_are_new col :
  normalize_header col ≠ "fatalities_total" ∧
  normalize_header col ≠ "fatalities_passengers" ∧
  normalize_header col ≠ "fatalities_crew".
Proof.
  unfold normalize_header.
  split_and!; intros H; destruct (fatalit_names (Py.strip col)) as [H'|H'];
    rewrite H in *; done.
Qed.

(** ** [clean_dataset]: when it completes *)

Section PassFacts.

Local Open Scope list_scope.
Local Open Scope nat_scope.

Context {P : Converters}.
Implicit Types (df : DataFrame P) (v : list (cell (scalar P))).

Lemma at_most_once_absent name df :
  has_column name df = false → at_most_once name df.
Proof.
  intros Hhas%has_column_false. unfold at_most_once.
  destruct (filter _ (columns df)) as [|c cs] eqn:Hf; [simpl; lia|].
  assert (Hc : c ∈ filter (λ c, c.1 = name) (columns df))
    by (rewrite Hf; apply list_elem_of_here).
  apply list_elem_of_filter in Hc as [<- Hc].
  by apply elem_of_labels, Hhas in Hc.
Qed.



Lemma apply_rows_Ok_elem {A B} (f : A → result B) (l : list A) l' x :
  apply_rows f l = Ok l' → x ∈ l → ∃ y, f x = Ok y.
Proof.
  revert l'. induction l as [|a l IH]; intros l' H Hx; [by apply elem_of_nil in Hx|].
  simpl in H. apply bind_Ok in H as (y & Hy & (ys & Hys & _)%bind_Ok).
  apply elem_of_cons in Hx as [->|Hx]; eauto.
Qed.



Lemma split_fatalities_reads df df' :
  split_fatalities df = Ok df' →
  at_most_once "fatalities" df ∧
  ∀ v x, series ValueError "fatalities" df = Ok v → x ∈ v →
         ∃ t, parse_fatalities (cell_text P x) = Ok t.
Proof.
  unfold split_fatalities. destruct (has_column "fatalities" df) eqn:Hhas; simpl.
  - intros (v & Hv & (totals & Ht & _)%bind_Ok)%bind_Ok. split.
    + by eapply at_most_once_series.
    + intros v' x Hv' Hx. assert (v' = v) as -> by congruence.
      by eapply (apply_rows_Ok_elem (λ x, parse_fatalities (cell_text P x))).
  - intros _. split; [by apply at_most_once_absent|].
    intros v x [Hin _]%series_Ok. apply elem_of_labels in Hin.
    by apply has_column_false in Hhas.
Qed.



(** The renamed table has no column of a derived fatalities name. *)
Lemma fatalities_derived_no_label df name :
  name = "fatalities_total" ∨ name = "fatalities_passengers" ∨
  name = "fatalities_crew" →
  name ∉ labels (normalize_columns df).
Proof.
  intros Hname. rewrite labels_normalize_columns.
  intros (l & Hl & _)%list_elem_of_fmap. unfold normalize_header in Hl.
  destruct (fatalit_names (Py.strip l)) as [H|H].
  - rewrite <- Hl. by destruct_or!; subst.
  - rewrite H in Hl. by destruct_or!; subst.
  - rewrite H in Hl. by destruct_or!; subst.
Qed.

Lemma fatalities_derived_absent df name :
  name = "fatalities_total" ∨ name = "fatalities_passengers" ∨
  name = "fatalities_crew" →
  at_most_once name (normalize_columns df).
Proof.
  intros Hname.
  by apply at_most_once_absent, has_column_false, fatalities_derived_no_label.
Qed.

Lemma not_elem_of_all (a : string) (T : list string) :
  Forall (λ b, a ≠ b) T → a ∉ T.
Proof. intros HT Ha. by apply (proj1 (Forall_forall _ _) HT a Ha). Qed.

End PassFacts.

Ltac other_label := apply not_elem_of_all; repeat constructor; done.



(** ** [clean_dataset]: what the derived columns hold *)

Section DerivedFacts.

Local Open Scope list_scope.
Local Open Scope nat_scope.

Context {P : Converters}.
Implicit Types (df : DataFrame P) (v : list (cell (scalar P))).

Lemma coerce_numeric_assigned name df df' raw :
  assigned name raw df → coerce_numeric name df = Ok df' →
  df' = set_column name (to_numeric P raw) df.
Proof.
  intros Hs (w & Hw & [= <-])%bind_Ok.
  by rewrite (assigned_series _ _ _ _ _ Hs Hw).
Qed.

Lemma split_fatalities_done df df' :
  split_fatalities df = Ok df' → fatalities_done df'.
Proof.
  unfold split_fatalities, fatalities_done.
  destruct (has_column "fatalities" df) eqn:Hhas; simpl;
    [|intros [= <-]; by rewrite Hhas].
  intros (v & Hv & (totals & Ht & H)%bind_Ok)%bind_Ok _.
  apply bind_Ok in H as (d1 & H1 & (d2 & H2 & H3)%bind_Ok).
  apply coerce_numeric_assigned with (raw := (λ x, cell_of_int P x.1.1) <$> totals)
    in H1; [|do 2 (apply assigned_set_column_other; [done|]); apply assigned_set_column].
  subst d1.
  apply coerce_numeric_assigned with (raw := (λ x, cell_of_int P x.1.2) <$> totals)
    in H2; [|do 2 (apply assigned_set_column_other; [done|]); apply assigned_set_column].
  subst d2.
  apply coerce_numeric_assigned with (raw := (λ x, cell_of_int P x.2) <$> totals)
    in H3; [|do 2 (apply assigned_set_column_other; [done|]); apply assigned_set_column].
  subst df'. exists v, totals. rewrite !series_set_column_other by done.
  split_and!; [done..| | |].
  - do 2 (apply assigned_set_column_other; [done|]). apply assigned_set_column.
  - apply assigned_set_column_other; [done|]. apply assigned_set_column.
  - apply assigned_set_column.
Qed.

Lemma fatalities_done_writes T df df' :
  writes T df df' → "fatalities" ∉ T → "fatalities_total" ∉ T →
  "fatalities_passengers" ∉ T → "fatalities_crew" ∉ T →
  fatalities_done df → fatalities_done df'.
Proof.
  intros Hw H1 H2 H3 H4 Hd. unfold fatalities_done.
  rewrite (writes_has_column _ _ _ _ Hw H1), (writes_series _ _ _ _ _ Hw H1).
  intros (v & totals & Hv & Ht & Ha & Hb & Hc)%Hd. exists v, totals.
  split_and!; [done..| | |]; by eapply writes_assigned.
Qed.

Lemma location_done_writes T df df' :
  writes T df df' → "location" ∉ T → "location_city" ∉ T →
  "location_state" ∉ T → "location_country" ∉ T →
  location_done df → location_done df'.
Proof.
  intros Hw H1 H2 H3 H4 Hd. unfold location_done.
  rewrite (writes_has_column _ _ _ _ Hw H1), (writes_series _ _ _ _ _ Hw H1).
  intros (v & ls & Hv & Ht & Ha & Hb & Hc)%Hd. exists v, ls.
  split_and!; [done..| | |]; by eapply writes_assigned.
Qed.

(** Every block's work is in the output of the pass. *)
Lemma clean_dataset_done df df' :
  clean_dataset df = Ok df' →
  date_done df' ∧ time_done df' ∧ fatalities_done df' ∧ location_done df'.
Proof.
  intros (d1 & d2 & d3 & d4 & H1 & H2 & H3 & H4 & H5)%clean_dataset_steps.
  pose proof (parse_time_col_writes _ _ H2) as W2.
  pose proof (split_fatalities_writes _ _ H3) as W3.
  pose proof (split_locations_writes _ _ H4) as W4.
  pose proof (ground_numeric_writes _ _ H5) as W5.
  split_and!.
  - eapply date_done_writes; [exact W5|other_label..|].
    eapply date_done_writes; [exact W4|other_label..|].
    eapply date_done_writes; [exact W3|other_label..|].
    eapply date_done_writes; [exact W2|other_label..|].
    by eapply parse_date_col_done.
  - eapply time_done_writes; [exact W5|other_label..|].
    eapply time_done_writes; [exact W4|other_label..|].
    eapply time_done_writes; [exact W3|other_label..|].
    by eapply parse_time_col_done.
  - eapply fatalities_done_writes; [exact W5|other_label..|].
    eapply fatalities_done_writes; [exact W4|other_label..|].
    by eapply split_fatalities_done.
  - eapply location_done_writes; [exact W5|other_label..|].
    by eapply split_locations_done.
Qed.

(** The three columns of the fatalities block are one column each. *)
Lemma fatalities_derived_once df df' name :
  clean_dataset df = Ok df' →
  name = "fatalities_total" ∨ name = "fatalities_passengers" ∨
  name = "fatalities_crew" →
  at_most_once name df'.
Proof.
  intros (d1 & d2 & d3 & d4 & H1 & H2 & H3 & H4 & H5)%clean_dataset_steps Hname.
  eapply writes_at_most_once; [by apply ground_numeric_writes|].
  eapply writes_at_most_once; [by eapply derived_steps_write|].
  by apply fatalities_derived_absent.
Qed.

Lemma series_has_column e name df v :
  series e name df = Ok v → has_column name df = true.
Proof. intros [Hin _]%series_Ok. apply elem_of_labels in Hin. by apply has_column_true. Qed.

Lemma apply_rows_fmap {A B} (f : A → result B) (g : A → B) (l : list A) :
  (∀ x, f x = Ok (g x)) → apply_rows f l = Ok (g <$> l).
Proof.
  intros Hf. induction l as [|x l IH]; simpl; [done|]. by rewrite Hf, IH.
Qed.

Lemma apply_rows_lookup {A B} (f : A → result B) (l : list A) l' i x :
  apply_rows f l = Ok l' → l !! i = Some x →
  ∃ y, f x = Ok y ∧ l' !! i = Some y.
Proof.
  revert l' i. induction l as [|a l IH]; intros l' i H Hi; [done|].
  simpl in H. apply bind_Ok in H as (y & Hy & (ys & Hys & [= <-])%bind_Ok).
  destruct i as [|i]; simpl in *.
  - injection Hi as <-. eauto.
  - by eapply IH.
Qed.

End DerivedFacts.

(** X14. In the output of the pass, where [time_raw] and [time_hhmm] are
    one column each, [time_raw] holds the values of [time] as they are and
    [time_hhmm], row by row, the time parsed from the value of [time] in
    that row.  (Columns that share one of the two labels share the values
    out, see [assigned_values].) *)
Theorem X14_time_columns {P} (df df' : DataFrame P) time :
  clean_dataset df = Ok df' →
  series ValueError "time" df' = Ok time →
  at_most_once "time_raw" df' → at_most_once "time_hhmm" df' →
  settled "time_raw" time df' ∧
  settled "time_hhmm"
    ((λ t, cell_of_text P (TimeParser (cell_text P t))) <$> time) df'.
Proof.
  intros (_ & Ht & _)%clean_dataset_done Htime Hone1 Hone2.
  destruct (Ht (series_has_column _ _ _ _ Htime))
    as (v & hhmm & Hv & Hh & Hraw & Hhhmm).
  assert (v = time) as -> by congruence.
  split; [by apply assigned_settled|].
  rewrite (apply_rows_fmap _ (λ t, TimeParser (cell_text P t))) in Hh
    by (intros; apply parse_time_refines).
  injection Hh as <-. rewrite <- list_fmap_compose in Hhhmm.
  by apply assigned_settled.
Qed.

Lemma X14_time_columns_witness :
  settled "time_raw" [Str "700"; Str "?"] sample_table_clean ∧
  settled "time_hhmm" [Str "07:00"; Missing] sample_table_clean.
Proof.
  apply (X14_time_columns sample_table sample_table_clean
           [Str "700"; Str "?"] clean_sample_table eq_refl).
  - unfold at_most_once. simpl. lia.
  - unfold at_most_once. simpl. lia.
Defined.

(** X15. In the output of the pass, where each of the three location labels
    is on one column, the three location columns hold, row by row, the
    city, the state and the country [split_location] returns for the value
    of [location] in that row. *)
Theorem X15_location_columns {P} (df df' : DataFrame P) location i x :
  clean_dataset df = Ok df' →
  series ValueError "location" df' = Ok location →
  at_most_once "location_city" df' → at_most_once "location_state" df' →
  at_most_once "location_country" df' →
  location !! i = Some x →
  ∃ city state country,
    split_location (cell_text P x) = Ok (city, state, country) ∧
    ∀ c, c ∈ columns df' →
      (c.1 = "location_city" → c.2 !! i = Some (cell_of_text P city)) ∧
      (c.1 = "location_state" → c.2 !! i = Some (cell_of_text P state)) ∧
      (c.1 = "location_country" → c.2 !! i = Some (cell_of_text P country)).
Proof.
  intros (_ & _ & _ & Hl)%clean_dataset_done Hloc Hone1 Hone2 Hone3 Hi.
  destruct (Hl (series_has_column _ _ _ _ Hloc))
    as (v & ls & Hv & Hs & Hcity & Hstate & Hcountry).
  apply assigned_settled in Hcity as [_ Hcity]; [|done].
  apply assigned_settled in Hstate as [_ Hstate]; [|done].
  apply assigned_settled in Hcountry as [_ Hcountry]; [|done].
  assert (v = location) as -> by congruence.
  destruct (apply_rows_lookup _ _ _ _ _ Hs Hi) as ([[city state] country] & Hx & Hy).
  exists city, state, country. split; [done|]. unfold triple in *.
  intros c Hc. split_and!; intros Hn.
  - by rewrite (Hcity c Hc Hn), list_lookup_fmap, Hy.
  - by rewrite (Hstate c Hc Hn), list_lookup_fmap, Hy.
  - by rewrite (Hcountry c Hc Hn), list_lookup_fmap, Hy.
Qed.

Lemma X15_location_columns_witness :
  ∃ city state country,
    split_location (Some "Near Paris, France") = Ok (city, state, country) ∧
    ∀ c, c ∈ columns sample_table_clean →
      (c.1 = "location_city" → c.2 !! 0%nat = Some (cell_of_text digits_only city)) ∧
      (c.1 = "location_state" → c.2 !! 0%nat = Some (cell_of_text digits_only state)) ∧
      (c.1 = "location_country" → c.2 !! 0%nat = Some (cell_of_text digits_only country)).
Proof.
  apply (X15_location_columns sample_table sample_table_clean
           [Str "Near Paris, France"; Str "Moscow"] 0%nat (Str "Near Paris, France")
           clean_sample_table eq_refl).
  - unfold at_most_once. simpl. lia.
  - unfold at_most_once. simpl. lia.
  - unfold at_most_once. simpl. lia.
  - reflexivity.
Defined.

(** X16. In the output of the pass, the three fatalities columns hold the
    numeric coercion of the totals, the passenger counts and the crew
    counts [parse_fatalities] returns for the values of [fatalities]. *)
Theorem X16_fatalities_columns {P} (df df' : DataFrame P) fatalities :
  clean_dataset df = Ok df' →
  series ValueError "fatalities" df' = Ok fatalities →
  ∃ totals,
    apply_rows (λ x, parse_fatalities (cell_text P x)) fatalities = Ok totals ∧
    settled "fatalities_total"
      (to_numeric P ((λ x, cell_of_int P x.1.1) <$> totals)) df' ∧
    settled "fatalities_passengers"
      (to_numeric P ((λ x, cell_of_int P x.1.2) <$> totals)) df' ∧
    settled "fatalities_crew"
      (to_numeric P ((λ x, cell_of_int P x.2) <$> totals)) df'.
Proof.
  intros Hclean Hfat.
  destruct (clean_dataset_done _ _ Hclean) as (_ & _ & Hf & _).
  destruct (Hf (series_has_column _ _ _ _ Hfat))
    as (v & totals & Hv & Ht & Ha & Hb & Hc).
  assert (v = fatalities) as -> by congruence.
  exists totals. split_and!; [done|..]; apply assigned_settled; try done.
  all: eapply fatalities_derived_once; [exact Hclean|tauto].
Qed.

Lemma X16_fatalities_columns_witness :
  ∃ totals,
    apply_rows (λ x, parse_fatalities (cell_text digits_only x))
      [Str "22   (passengers:?  crew:?)"; Str "1    (passengers:1  crew:0)"]
      = Ok totals ∧
    settled "fatalities_total"
      (to_numeric digits_only ((λ x, cell_of_int digits_only x.1.1) <$> totals))
      sample_table_clean ∧
    settled "fatalities_passengers"
      (to_numeric digits_only ((λ x, cell_of_int digits_only x.1.2) <$> totals))
      sample_table_clean ∧
    settled "fatalities_crew"
      (to_numeric digits_only ((λ x, cell_of_int digits_only x.2) <$> totals))
      sample_table_clean.
Proof.
  exact (X16_fatalities_columns sample_table sample_table_clean _
           clean_sample_table eq_refl).
Defined.

(** X17. In the output of the pass, where [date_parsed] is one column, it
    holds what [pd.to_datetime] makes of the column [date]. *)
Theorem X17_date_column {P} (df df' : DataFrame P) date :
  clean_dataset df = Ok df' →
  series ValueError "date" df' = Ok date →
  at_most_once "date_parsed" df' →
  settled "date_parsed" (to_datetime P date) df'.
Proof.
  intros (Hd & _)%clean_dataset_done Hdate Hone.
  destruct (Hd (series_has_column _ _ _ _ Hdate)) as (v & Hv & Hs).
  assert (v = date) as -> by congruence. by apply assigned_settled.
Qed.

Lemma X17_date_column_witness :
  settled "date_parsed" [Missing; Missing] sample_table_clean.
Proof.
  apply (X17_date_column sample_table sample_table_clean
           [Str "1/1/2000"; Str "?"] clean_sample_table eq_refl).
  unfold at_most_once. simpl. lia.
Defined.

(** ** [clean_dataset]: columns that are not there *)

Section SkipFacts.

Context {P : Converters}.
Implicit Types (df : DataFrame P).

Lemma parse_date_col_skip df df' :
  parse_date_col df = Ok df' → "date" ∉ labels df → df' = df.
Proof.
  unfold parse_date_col. intros H Hno%has_column_false. rewrite Hno in H.
  by injection H.
Qed.

Lemma parse_time_col_skip df df' :
  parse_time_col df = Ok df' → "time" ∉ labels df → df' = df.
Proof.
  unfold parse_time_col. intros H Hno%has_column_false. rewrite Hno in H.
  by injection H.
Qed.

Lemma split_fatalities_skip df df' :
  split_fatalities df = Ok df' → "fatalities" ∉ labels df → df' = df.
Proof.
  unfold split_fatalities. intros H Hno%has_column_false. rewrite Hno in H.
  by injection H.
Qed.

Lemma split_locations_skip df df' :
  split_locations df = Ok df' → "location" ∉ labels df → df' = df.
Proof.
  unfold split_locations. intros H Hno%has_column_false. rewrite Hno in H.
  by injection H.
Qed.

Lemma ground_numeric_skip df df' :
  ground_numeric df = Ok df' → "ground_fatalities" ∉ labels df → df' = df.
Proof.
  unfold ground_numeric. intros H Hno%has_column_false. rewrite Hno in H.
  by injection H.
Qed.

End SkipFacts.

(** X18. A table that, once renamed, has none of the five columns the pass
    parses comes out renamed and otherwise as it was: no column is added
    and nothing raises. *)
Theorem X18_nothing_to_parse {P} (df : DataFrame P) :
  (∀ name, name ∈ source_columns → name ∉ labels (normalize_columns df)) →
  clean_dataset df = Ok (normalize_columns df).
Proof.
  intros Hno.
  assert (Hhas : ∀ name, name ∈ source_columns →
                         has_column name (normalize_columns df) = false)
    by (intros; by apply has_column_false, Hno).
  unfold clean_dataset, parse_date_col. cbv zeta.
  rewrite Hhas by (unfold source_columns; rewrite !elem_of_cons; tauto). simpl.
  unfold parse_time_col.
  rewrite Hhas by (unfold source_columns; rewrite !elem_of_cons; tauto). simpl.
  unfold split_fatalities.
  rewrite Hhas by (unfold source_columns; rewrite !elem_of_cons; tauto). simpl.
  unfold split_locations.
  rewrite Hhas by (unfold source_columns; rewrite !elem_of_cons; tauto). simpl.
  unfold ground_numeric.
  by rewrite Hhas by (unfold source_columns; rewrite !elem_of_cons; tauto).
Qed.

Lemma X18_nothing_to_parse_witness :
  clean_dataset (@raw_table digits_only ["Operator"; "Route"] [["KLM"; "A - B"]])
  = Ok (normalize_columns (raw_table ["Operator"; "Route"] [["KLM"; "A - B"]])).
Proof.
  apply X18_nothing_to_parse. intros name.
  change (labels (normalize_columns
            (@raw_table digits_only ["Operator"; "Route"] [["KLM"; "A - B"]])))
    with ["operator"; "route"].
  unfold source_columns. rewrite !elem_of_cons, !elem_of_nil.
  intros H1 H2. destruct_or!; subst; done.
Defined.

Ltac label_back H W := rewrite (writes_labels _ _ _ _ W) in H by other_label.

(** X19. For a source column that the renamed table does not have, nothing
    is added: a derived column of that source is in the output only if the
    renamed table had a column of that name already. *)
Theorem X19_no_source_no_derived_column {P} (df df' : DataFrame P) tgt src :
  clean_dataset df = Ok df' →
  (tgt, src) ∈ derived_from →
  src ∉ labels (normalize_columns df) →
  tgt ∉ labels (normalize_columns df) → tgt ∉ labels df'.
Proof.
  intros Hclean Hpair Hsrc Hnew Htgt. apply Hnew. clear Hnew.
  revert Hclean Hpair Hsrc Htgt.
  intros (d1 & d2 & d3 & d4 & H1 & H2 & H3 & H4 & H5)%clean_dataset_steps.
  pose proof (parse_date_col_writes _ _ H1) as W1.
  pose proof (parse_time_col_writes _ _ H2) as W2.
  pose proof (split_fatalities_writes _ _ H3) as W3.
  pose proof (split_locations_writes _ _ H4) as W4.
  pose proof (ground_numeric_writes _ _ H5) as W5.
  unfold derived_from. rewrite !elem_of_cons, elem_of_nil.
  intros Hpair Hsrc Htgt.
  destruct Hpair as [[= -> ->]|[[= -> ->]|[[= -> ->]|[[= -> ->]|[[= -> ->]|
                    [[= -> ->]|[[= -> ->]|[[= -> ->]|[[= -> ->]|[]]]]]]]]]].
  - label_back Htgt W5. label_back Htgt W4. label_back Htgt W3. label_back Htgt W2.
    by rewrite (parse_date_col_skip _ _ H1 Hsrc) in Htgt.
  - label_back Htgt W5. label_back Htgt W4. label_back Htgt W3.
    rewrite <- (writes_labels _ _ _ _ W1) in Hsrc by other_label.
    rewrite (parse_time_col_skip _ _ H2 Hsrc) in Htgt. by label_back Htgt W1.
  - label_back Htgt W5. label_back Htgt W4. label_back Htgt W3.
    rewrite <- (writes_labels _ _ _ _ W1) in Hsrc by other_label.
    rewrite (parse_time_col_skip _ _ H2 Hsrc) in Htgt. by label_back Htgt W1.
  - label_back Htgt W5. label_back Htgt W4.
    rewrite <- (writes_labels _ _ _ _ W1) in Hsrc by other_label.
    rewrite <- (writes_labels _ _ _ _ W2) in Hsrc by other_label.
    rewrite (split_fatalities_skip _ _ H3 Hsrc) in Htgt.
    label_back Htgt W2. by label_back Htgt W1.
  - label_back Htgt W5. label_back Htgt W4.
    rewrite <- (writes_labels _ _ _ _ W1) in Hsrc by other_label.
    rewrite <- (writes_labels _ _ _ _ W2) in Hsrc by other_label.
    rewrite (split_fatalities_skip _ _ H3 Hsrc) in Htgt.
    label_back Htgt W2. by label_back Htgt W1.
  - label_back Htgt W5. label_back Htgt W4.
    rewrite <- (writes_labels _ _ _ _ W1) in Hsrc by other_label.
    rewrite <- (writes_labels _ _ _ _ W2) in Hsrc by other_label.
    rewrite (split_fatalities_skip _ _ H3 Hsrc) in Htgt.
    label_back Htgt W2. by label_back Htgt W1.
  - label_back Htgt W5.
    rewrite <- (writes_labels _ _ _ _ W1) in Hsrc by other_label.
    rewrite <- (writes_labels _ _ _ _ W2) in Hsrc by other_label.
    rewrite <- (writes_labels _ _ _ _ W3) in Hsrc by other_label.
    rewrite (split_locations_skip _ _ H4 Hsrc) in Htgt.
    label_back Htgt W3. label_back Htgt W2. by label_back Htgt W1.
  - label_back Htgt W5.
    rewrite <- (writes_labels _ _ _ _ W1) in Hsrc by other_label.
    rewrite <- (writes_labels _ _ _ _ W2) in Hsrc by other_label.
    rewrite <- (writes_labels _ _ _ _ W3) in Hsrc by other_label.
    rewrite (split_locations_skip _ _ H4 Hsrc) in Htgt.
    label_back Htgt W3. label_back Htgt W2. by label_back Htgt W1.
  - label_back Htgt W5.
    rewrite <- (writes_labels _ _ _ _ W1) in Hsrc by other_label.
    rewrite <- (writes_labels _ _ _ _ W2) in Hsrc by other_label.
    rewrite <- (writes_labels _ _ _ _ W3) in Hsrc by other_label.
    rewrite (split_locations_skip _ _ H4 Hsrc) in Htgt.
    label_back Htgt W3. label_back Htgt W2. by label_back Htgt W1.
Qed.

Lemma X19_no_source_no_derived_column_witness :
  "date_parsed" ∉ labels times_table_clean.
Proof.
  apply (X19_no_source_no_derived_column times_table times_table_clean
           "date_parsed" "date" clean_times_table).
  - unfold derived_from. apply list_elem_of_here.
  - change (labels (normalize_columns times_table)) with ["time"; "location"].
    rewrite !elem_of_cons, elem_of_nil. intros H. destruct_or!; done.
  - change (labels (normalize_columns times_table)) with ["time"; "location"].
    rewrite !elem_of_cons, elem_of_nil. intros H. destruct_or!; done.
Defined.

(** X20. For a text, [split_location] returns a city, or else the whole
    trimmed text as the country and no state: a state never comes without a
    city, and the three fields are never all null. *)
Theorem X20_location_has_city_or_country l city state country :
  split_location (Some l) = Ok (city, state, country) →
  is_Some city ∨ (state = None ∧ country = Some (Py.strip l)).
Proof.
  destruct (Py.contains "," l) eqn:Hc.
  - rewrite split_location_comma by done.
    destruct (location_parts l) as [|p0 [|p1 [|p2 ps]]]; [done|..].
    + intros [= <- _ _]. by left.
    + destruct (bool_decide _); intros [= <- _ _]; by left.
    + destruct (last (p2 :: ps)); [|done]. intros [= <- _ _]. by left.
  - rewrite split_location_no_comma by done.
    destruct (existsb _ _); intros [= <- <- <-]; [by right|by left].
Qed.

Lemma X20_location_has_city_or_country_witness :
  is_Some (@None string) ∨
  ((@None string) = None ∧ Some "Italy" = Some (Py.strip " Italy ")).
Proof.
  exact (X20_location_has_city_or_country " Italy " None None (Some "Italy") eq_refl).
Defined.

(** * Running the pass again *)

(** ** The names of the columns of a cleaned table *)

Lemma snake_not_space c : snake_char c = true → Py.is_space c = false.
Proof. PyFacts.by_cases_on_char c. Qed.

Lemma snake_lower_char c : snake_char c = true → Py.lower_char c = c.
Proof. PyFacts.by_cases_on_char c. Qed.

Lemma snake_underscore c :
  snake_char c = true → Py.is_alnum c = false → Ascii.eqb "_" c = true.
Proof. PyFacts.by_cases_on_char c. Qed.

Lemma drop_while_none p q s :
  Py.all_chars p s = true → (∀ c, p c = true → q c = false) →
  Py.drop_while q s = s.
Proof.
  destruct s as [|c s]; [done|]. simpl. intros [Hc _]%andb_prop Hq.
  by rewrite (Hq c Hc).
Qed.

Lemma drop_end_none p q s :
  Py.all_chars p s = true → (∀ c, p c = true → q c = false) →
  Py.drop_end q s = s.
Proof.
  intros Hs Hq. induction s as [|c s IH]; [done|].
  simpl in Hs. apply andb_prop in Hs as [Hc Hs]. simpl Py.drop_end.
  rewrite (IH Hs). destruct s; [by rewrite (Hq c Hc)|done].
Qed.

Lemma snake_lower s : Py.all_chars snake_char s = true → Py.lower s = s.
Proof.
  induction s as [|c s IH]; [done|]. simpl. intros [Hc Hs]%andb_prop.
  by rewrite snake_lower_char, IH.
Qed.

(** A snake-case name is its own key. *)
Lemma snake_key s : Py.all_chars snake_char s = true → Py.lower (Py.strip s) = s.
Proof.
  intros H. unfold Py.strip, Py.strip_by.
  rewrite (drop_while_none snake_char _ _ H snake_not_space).
  rewrite (drop_end_none snake_char _ _ H snake_not_space).
  by apply snake_lower.
Qed.

Lemma lower_idem s : Py.lower (Py.lower s) = Py.lower s.
Proof. induction s as [|c s IH]; simpl; [done|]. by rewrite lower_char_idem, IH. Qed.

(** The substitution leaves a snake-case text without two underscores in a
    row as it is. *)
Lemma sub_non_alnum_fixed s :
  Py.all_chars snake_char s = true → Py.contains "__" s = false →
  Py.sub_non_alnum false s = s ∧
  (String.prefix "_" s = false → Py.sub_non_alnum true s = s).
Proof.
  induction s as [|c s IH]; [done|]. simpl Py.all_chars.
  intros [Hc Hs]%andb_prop. rewrite PyFacts.contains_cons.
  intros [Hp Hcont]%orb_false_elim. destruct (IH Hs Hcont) as [IH1 IH2].
  simpl Py.sub_non_alnum. destruct (Py.is_alnum c) eqn:Ha.
  - by rewrite IH1.
  - pose proof (snake_underscore c Hc Ha) as Hu. apply Ascii.eqb_eq in Hu. subst c.
    rewrite PyFacts.prefix_cons in Hp. destruct (ascii_dec "_" "_"); [|done].
    split; [by rewrite IH2|].
    rewrite PyFacts.prefix_cons. destruct (ascii_dec "_" "_"); [|done].
    by rewrite PyFacts.prefix_empty.
Qed.

(** A name [canonical_name] gives is its own key and its own fallback. *)
Lemma canonical_name_key col :
  Py.lower (Py.strip (canonical_name col)) = canonical_name col ∧
  fallback_name (canonical_name col) = canonical_name col.
Proof.
  unfold canonical_name. cbv zeta.
  set (key := Py.lower (Py.strip col)).
  set (tmp := Py.strip_by (Ascii.eqb "_") (Py.sub_non_alnum false key)).
  destruct (String.eqb tmp "") eqn:Htmp.
  - split_name_tests; try (by split). split.
    + subst key. by rewrite PyFacts.strip_lower, PyFacts.strip_idem, lower_idem.
    + unfold fallback_name. cbv zeta. fold tmp. by rewrite Htmp.
  - split_name_tests; try (by split).
    assert (Hsnake : Py.all_chars snake_char tmp = true)
      by apply all_chars_drop_end, all_chars_drop_while, sub_non_alnum_snake.
    assert (Hsingle : Py.contains "__" tmp = false).
    { apply not_true_is_false. intros H%contains_strip_by_imp.
      by rewrite (proj1 (sub_non_alnum_single key false)) in H. }
    split; [by apply snake_key|].
    unfold fallback_name. cbv zeta.
    rewrite (proj1 (sub_non_alnum_fixed tmp Hsnake Hsingle)).
    assert (Hstrip : Py.strip_by (Ascii.eqb "_") tmp = tmp) by apply strip_by_idem.
    by rewrite Hstrip, Htmp.
Qed.

(** Such a name is given a name of [kept_columns] only if it is that name. *)
Lemma kept_name l name :
  Py.lower (Py.strip l) = l → fallback_name l = l →
  name ∈ kept_columns → normalize_header l = name → l = name.
Proof.
  intros Hkey Hfb Hname. unfold normalize_header.
  rewrite canonical_name_rules, PyFacts.strip_idem, Hkey.
  unfold kept_columns in Hname. rewrite !elem_of_cons, elem_of_nil in Hname.
  unfold column_rules. cbn [first_match]. rewrite Hfb.
  split_name_tests; intros <-; try done;
    try (by apply String.eqb_eq); by destruct_or!.
Qed.

Lemma kept_name_fixed name : name ∈ kept_columns → normalize_header name = name.
Proof.
  unfold kept_columns. rewrite !elem_of_cons, elem_of_nil.
  intros H. by destruct_or!; subst.
Qed.

Section AgainFacts.

Local Open Scope list_scope.
Local Open Scope nat_scope.

Context {P : Converters}.
Implicit Types (df : DataFrame P) (v : list (cell (scalar P))).

(** A label of a cleaned table is the name of a header, or the label of a
    column the pass writes. *)
Lemma cleaned_label df df1 l :
  clean_dataset df = Ok df1 → l ∈ labels df1 →
  (∃ h, l = normalize_header h) ∨ l ∈ derived_columns ∨ l = "ground_fatalities".
Proof.
  intros (d1 & d2 & d3 & d4 & H1 & H2 & H3 & H4 & H5)%clean_dataset_steps Hl.
  destruct (decide (l ∈ derived_columns)) as [|Hder]; [tauto|].
  destruct (decide (l = "ground_fatalities")) as [|Hg]; [tauto|]. left.
  rewrite (writes_labels _ _ _ _ (ground_numeric_writes _ _ H5)) in Hl
    by (rewrite list_elem_of_singleton; done).
  rewrite (writes_labels _ _ _ _ (derived_steps_write _ _ _ _ _ H1 H2 H3 H4)) in Hl
    by done.
  rewrite labels_normalize_columns in Hl.
  apply list_elem_of_fmap in Hl as (h & -> & _). by exists h.
Qed.

(** In a cleaned table the names of [kept_columns] are on the columns that
    [normalize_columns] gives them to, and on no other. *)
Lemma cleaned_label_kept df df1 l name :
  clean_dataset df = Ok df1 → l ∈ labels df1 →
  name ∈ kept_columns → normalize_header l = name → l = name.
Proof.
  intros Hclean Hl Hname Hn.
  destruct (cleaned_label _ _ _ Hclean Hl) as [[h ->]|[Hder| ->]].
  - unfold normalize_header in Hn |- * at 1.
    destruct (canonical_name_key (Py.strip h)) as [Hkey Hfb].
    by apply kept_name.
  - unfold derived_columns in Hder. rewrite !elem_of_cons, elem_of_nil in Hder.
    unfold kept_columns in Hname. rewrite !elem_of_cons, elem_of_nil in Hname.
    destruct Hder as [->|[->|[->|[->|[->|[->|[->|[->|[->|[]]]]]]]]]];
      vm_compute in Hn; subst name; try done; by destruct_or!.
  - unfold kept_columns in Hname. rewrite !elem_of_cons, elem_of_nil in Hname.
    vm_compute in Hn. subst name. by destruct_or!.
Qed.

(** *** The renaming of a cleaned table *)

Lemma filter_normalize_kept df name :
  (∀ l, l ∈ labels df → normalize_header l = name → l = name) →
  normalize_header name = name →
  filter (λ c, c.1 = name) (columns (normalize_columns df))
  = filter (λ c, c.1 = name) (columns df).
Proof.
  rewrite normalize_columns_eq. unfold labels. simpl. intros Hl Hname.
  induction (columns df) as [|[l x] cs IH]; [done|].
  rewrite fmap_cons, !filter_cons, IH
    by (intros l' Hl'; apply Hl; rewrite fmap_cons; by apply list_elem_of_further).
  unfold prod_map at 1 2. simpl.
  destruct (decide (normalize_header l = name)) as [Heq|Hne].
  - assert (l = name) as ->
      by (apply Hl; [rewrite fmap_cons; apply list_elem_of_here|done]).
    rewrite decide_True by done. by rewrite Hname.
  - rewrite decide_False; [done|]. by intros ->.
Qed.

Lemma has_column_filter name df df' :
  filter (λ c, c.1 = name) (columns df') = filter (λ c, c.1 = name) (columns df) →
  has_column name df' = has_column name df.
Proof.
  intros Heq. destruct (has_column name df) eqn:H.
  - apply filter_present. rewrite Heq. intros Hnil.
    apply has_column_true, list_elem_of_fmap in H as (c & Hc & Hin).
    assert (Hf : c ∈ filter (λ c, c.1 = name) (columns df))
      by by apply list_elem_of_filter.
    rewrite Hnil in Hf. by apply elem_of_nil in Hf.
  - apply filter_absent in H. rewrite <- Heq in H.
    destruct (has_column name df') eqn:H'; [|done].
    apply has_column_true, list_elem_of_fmap in H' as (c & Hc & Hin).
    assert (Hf : c ∈ filter (λ c, c.1 = name) (columns df'))
      by by apply list_elem_of_filter.
    rewrite H in Hf. by apply elem_of_nil in Hf.
Qed.

Lemma nrows_normalize_columns df : nrows (normalize_columns df) = nrows df.
Proof. by rewrite normalize_columns_eq. Qed.

Section Cleaned.

Variables (df df1 : DataFrame P) (name : string).
Hypothesis Hclean : clean_dataset df = Ok df1.
Hypothesis Hname : name ∈ kept_columns.

Lemma filter_normalize_cleaned :
  filter (λ c, c.1 = name) (columns (normalize_columns df1))
  = filter (λ c, c.1 = name) (columns df1).
Proof.
  apply filter_normalize_kept; [|by apply kept_name_fixed].
  intros l Hl. by apply (cleaned_label_kept df df1).
Qed.

Lemma has_column_normalize_cleaned :
  has_column name (normalize_columns df1) = has_column name df1.
Proof. apply has_column_filter, filter_normalize_cleaned. Qed.

Lemma series_normalize_cleaned e :
  series e name (normalize_columns df1) = series e name df1.
Proof. unfold series. by rewrite filter_normalize_cleaned. Qed.

Lemma assigned_normalize_cleaned v :
  assigned name v df1 → assigned name v (normalize_columns df1).
Proof.
  unfold assigned. cbv zeta.
  by rewrite filter_normalize_cleaned, nrows_normalize_columns.
Qed.

End Cleaned.

Ltac kept_label :=
  unfold kept_columns; rewrite !elem_of_cons; tauto.

(** The renamed cleaned table is as the first, second and fourth block
    leave a table. *)
Lemma renamed_done df df1 :
  clean_dataset df = Ok df1 →
  date_done (normalize_columns df1) ∧ time_done (normalize_columns df1) ∧
  location_done (normalize_columns df1).
Proof.
  intros Hclean. destruct (clean_dataset_done _ _ Hclean) as (Hd & Ht & _ & Hl).
  split_and!.
  - unfold date_done.
    rewrite (has_column_normalize_cleaned df df1 "date" Hclean) by kept_label.
    rewrite (series_normalize_cleaned df df1 "date" Hclean) by kept_label.
    intros (v & Hv & Ha)%Hd. exists v. split; [done|].
    apply (assigned_normalize_cleaned df df1); [done|kept_label|done].
  - unfold time_done.
    rewrite (has_column_normalize_cleaned df df1 "time" Hclean) by kept_label.
    rewrite (series_normalize_cleaned df df1 "time" Hclean) by kept_label.
    intros (v & hhmm & Hv & Hh & Ha & Hb)%Ht. exists v, hhmm.
    split_and!; [done..| |];
      (apply (assigned_normalize_cleaned df df1); [done|kept_label|done]).
  - unfold location_done.
    rewrite (has_column_normalize_cleaned df df1 "location" Hclean) by kept_label.
    rewrite (series_normalize_cleaned df df1 "location" Hclean) by kept_label.
    intros (v & ls & Hv & Hs & Ha & Hb & Hc)%Hl. exists v, ls.
    split_and!; [done..| | |];
      (apply (assigned_normalize_cleaned df df1); [done|kept_label|done]).
Qed.

(** *** A cleaned table with fatalities *)

Lemma lookup_filter_length (cols : list (string * list (cell (scalar P)))) name i x :
  cols !! i = Some (name, x) → 0 < length (filter (λ c, c.1 = name) cols).
Proof.
  intros Hi. apply list_elem_of_lookup_2 in Hi.
  assert (Hf : (name, x) ∈ filter (λ c, c.1 = name) cols)
    by by apply list_elem_of_filter.
  destruct (filter _ cols); [by apply elem_of_nil in Hf|simpl; lia].
Qed.

(** Two columns of a label at different places. *)
Lemma two_columns (cols : list (string * list (cell (scalar P)))) name :
  ∀ i j x y, cols !! i = Some (name, x) → cols !! j = Some (name, y) → i ≠ j →
  2 ≤ length (filter (λ c, c.1 = name) cols).
Proof.
  induction cols as [|c cols IH]; intros i j x y Hi Hj Hne; [done|].
  rewrite filter_cons. destruct i as [|i], j as [|j]; simpl in *; [done|..].
  - injection Hi as ->. rewrite decide_True by done. simpl.
    apply lookup_filter_length in Hj. lia.
  - injection Hj as ->. rewrite decide_True by done. simpl.
    apply lookup_filter_length in Hi. lia.
  - assert (H2 : 2 ≤ length (filter (λ c, c.1 = name) cols))
      by (eapply (IH i j); [done..|lia]).
    destruct (decide (c.1 = name)); simpl; lia.
Qed.

(** A column of the fatalities block is there only with the column
    [fatalities]. *)
Lemma fatalities_derived_source df df1 l :
  clean_dataset df = Ok df1 →
  l = "fatalities_total" ∨ l = "fatalities_passengers" ∨ l = "fatalities_crew" →
  l ∈ labels df1 → "fatalities" ∈ labels df1.
Proof.
  intros (d1 & d2 & d3 & d4 & H1 & H2 & H3 & H4 & H5)%clean_dataset_steps Hname Hl.
  pose proof (parse_date_col_writes _ _ H1) as W1.
  pose proof (parse_time_col_writes _ _ H2) as W2.
  pose proof (split_fatalities_writes _ _ H3) as W3.
  pose proof (split_locations_writes _ _ H4) as W4.
  pose proof (ground_numeric_writes _ _ H5) as W5.
  eapply writes_labels_mono; [exact W5|].
  eapply writes_labels_mono; [exact W4|].
  eapply writes_labels_mono; [exact W3|].
  destruct (decide ("fatalities" ∈ labels d2)) as [|Hno]; [done|]. exfalso.
  rewrite (writes_labels _ _ _ _ W5) in Hl by (destruct_or!; subst; other_label).
  rewrite (writes_labels _ _ _ _ W4) in Hl by (destruct_or!; subst; other_label).
  rewrite (split_fatalities_skip _ _ H3 Hno) in Hl.
  rewrite (writes_labels _ _ _ _ W2) in Hl by (destruct_or!; subst; other_label).
  rewrite (writes_labels _ _ _ _ W1) in Hl by (destruct_or!; subst; other_label).
  revert Hl. by apply fatalities_derived_no_label.
Qed.

(** The second pass does not complete on a cleaned table with a column of
    the fatalities block. *)
Lemma second_pass_no_fatalities df df1 df2 l :
  clean_dataset df = Ok df1 → clean_dataset df1 = Ok df2 →
  l = "fatalities_total" ∨ l = "fatalities_passengers" ∨ l = "fatalities_crew" →
  l ∉ labels df1.
Proof.
  intros Hclean Hagain Hname Hl.
  pose proof (fatalities_derived_source _ _ _ Hclean Hname Hl) as Hf.
  destruct (renamed_done _ _ Hclean) as (Hdate & Htime & _).
  apply clean_dataset_steps in Hagain as (d1 & d2 & d3 & d4 & H1 & H2 & H3 & H4 & H5).
  rewrite (date_done_fixed _ Hdate) in H1. injection H1 as <-.
  rewrite (time_done_fixed _ Htime) in H2. injection H2 as <-.
  destruct (split_fatalities_reads _ _ H3) as [Hone _].
  apply list_elem_of_fmap in Hl as ([l' x] & Hl' & [i Hi]%list_elem_of_lookup).
  apply list_elem_of_fmap in Hf as ([f' y] & Hf' & [j Hj]%list_elem_of_lookup).
  simpl in Hl', Hf'. subst l' f'.
  assert (Hij : i ≠ j).
  { intros ->. rewrite Hi in Hj. injection Hj as -> _. by destruct_or!. }
  apply lookup_normalize_columns in Hi, Hj.
  assert (Hnl : normalize_header l = "fatalities") by (by destruct_or!; subst).
  rewrite Hnl in Hi. change (normalize_header "fatalities") with "fatalities" in Hj.
  pose proof (two_columns _ _ _ _ _ _ Hi Hj Hij) as Htwo.
  unfold at_most_once in Hone. lia.
Qed.

(** It raises on a cleaned table with a column [fatalities]: the renaming
    gives that name to the columns of the fatalities block as well. *)
Lemma second_pass_raises df df1 :
  clean_dataset df = Ok df1 → "fatalities" ∈ labels df1 →
  clean_dataset df1 = Raise ValueError.
Proof.
  intros Hclean Hf.
  assert (Ht : "fatalities_total" ∈ labels df1).
  { pose proof Hclean as Hsteps.
    apply clean_dataset_steps in Hsteps as (d1 & d2 & d3 & d4 & H1 & H2 & H3 & H4 & H5).
    pose proof (split_fatalities_writes _ _ H3) as W3.
    pose proof (split_locations_writes _ _ H4) as W4.
    pose proof (ground_numeric_writes _ _ H5) as W5.
    eapply writes_labels_mono; [exact W5|].
    eapply writes_labels_mono; [exact W4|].
    apply (split_fatalities_adds _ _ H3), has_column_true.
    rewrite (writes_labels _ _ _ _ W5) in Hf by other_label.
    rewrite (writes_labels _ _ _ _ W4) in Hf by other_label.
    by rewrite (writes_labels _ _ _ _ W3) in Hf by other_label. }
  destruct (renamed_done _ _ Hclean) as (Hdate & Htime & _).
  apply list_elem_of_fmap in Ht as ([l' x] & Hl' & [i Hi]%list_elem_of_lookup).
  apply list_elem_of_fmap in Hf as ([f' y] & Hf' & [j Hj]%list_elem_of_lookup).
  simpl in Hl', Hf'. subst l' f'.
  assert (Hij : i ≠ j) by (intros ->; rewrite Hi in Hj; by injection Hj).
  apply lookup_normalize_columns in Hi, Hj.
  change (normalize_header "fatalities_total") with "fatalities" in Hi.
  change (normalize_header "fatalities") with "fatalities" in Hj.
  pose proof (two_columns _ _ _ _ _ _ Hi Hj Hij) as Htwo.
  assert (Hhas : has_column "fatalities" (normalize_columns df1) = true).
  { apply has_column_true, list_elem_of_fmap. exists ("fatalities", y).
    split; [done|]. by eapply list_elem_of_lookup_2. }
  unfold clean_dataset. cbv zeta.
  rewrite (date_done_fixed _ Hdate). simpl.
  rewrite (time_done_fixed _ Htime). simpl.
  unfold split_fatalities, series. rewrite Hhas.
  destruct (filter _ (columns (normalize_columns df1))) as [|c0 [|c1 cs]];
    simpl in Htwo; [lia..|done].
Qed.

End AgainFacts.

(** ** DatasetCleaner: running the pass again *)

(** C2, as the code has it.  When the pass is run on its own output and
    completes, every derived column of that output is in the second output
    as it was: at its place, under its name, with its values in every row.
    The second pass does not always complete: it raises on an output with
    a column [fatalities]. *)
Theorem C2_second_pass_keeps_derived_columns {P} (df df1 df2 : DataFrame P) :
  clean_dataset df = Ok df1 →
  clean_dataset df1 = Ok df2 →
  ∀ i name x, columns df1 !! i = Some (name, x) → name ∈ derived_columns →
    columns df2 !! i = Some (name, x).
Proof.
  intros Hclean Hagain i name x Hi Hname.
  assert (Hsix : name = "date_parsed" ∨ name = "time_raw" ∨ name = "time_hhmm" ∨
                 name = "location_city" ∨ name = "location_state" ∨
                 name = "location_country").
  { pose proof (second_pass_no_fatalities _ _ _ name Hclean Hagain) as Hno.
    assert (Hin : name ∈ labels df1).
    { apply list_elem_of_fmap. exists (name, x). split; [done|].
      by eapply list_elem_of_lookup_2. }
    unfold derived_columns in Hname. rewrite !elem_of_cons, elem_of_nil in Hname.
    destruct Hname as [?|[?|[?|[?|[?|[?|[?|[?|[?|[]]]]]]]]]]; try tauto.
    all: exfalso; apply Hno; tauto. }
  assert (Hkept : name ∈ kept_columns)
    by (unfold kept_columns; rewrite !elem_of_cons; tauto).
  destruct (renamed_done _ _ Hclean) as (Hdate & Htime & Hloc).
  apply clean_dataset_steps in Hagain as (d1 & d2 & d3 & d4 & H1 & H2 & H3 & H4 & H5).
  rewrite (date_done_fixed _ Hdate) in H1. injection H1 as <-.
  rewrite (time_done_fixed _ Htime) in H2. injection H2 as <-.
  pose proof (split_fatalities_writes _ _ H3) as W3.
  assert (Hloc3 : location_done d3)
    by (eapply location_done_writes; [exact W3|other_label..|done]).
  rewrite (location_done_fixed _ Hloc3) in H4. injection H4 as <-.
  pose proof (ground_numeric_writes _ _ H5) as W5.
  apply lookup_normalize_columns in Hi. rewrite (kept_name_fixed _ Hkept) in Hi.
  destruct (writes_lookup _ _ _ _ _ _ W3 Hi) as (x3 & Hx3 & Hsame3).
  rewrite Hsame3 in Hx3 by (destruct_or!; subst; other_label).
  destruct (writes_lookup _ _ _ _ _ _ W5 Hx3) as (x5 & Hx5 & Hsame5).
  by rewrite Hsame5 in Hx5 by (destruct_or!; subst; other_label).
Qed.

Lemma C2_second_pass_keeps_derived_columns_witness :
  columns ground_table_again !! 6%nat = Some ("time_hhmm", [Str "07:00"; Missing]).
Proof.
  apply (C2_second_pass_keeps_derived_columns
           ground_table ground_table_clean ground_table_again
           clean_ground_table clean_ground_table_again
           6%nat "time_hhmm" [Str "07:00"; Missing] eq_refl).
  unfold derived_columns. rewrite !elem_of_cons. tauto.
Defined.

(** The claim as written fails on a table with fatalities: the second pass
    renames the three derived columns to [fatalities], finds four columns of
    that name and raises. *)
Lemma C2_counterexample :
  clean_dataset fatalities_table = Ok fatalities_table_clean ∧
  labels (normalize_columns fatalities_table_clean)
    = ["fatalities"; "fatalities"; "fatalities"; "fatalities"] ∧
  clean_dataset fatalities_table_clean = Raise ValueError ∧
  ¬ (∀ df df1 : DataFrame digits_only,
       clean_dataset df = Ok df1 →
       ∃ df2, clean_dataset df1 = Ok df2 ∧
              ∀ name, name ∈ derived_columns →
                filter (λ c, c.1 = name) (columns df2)
                = filter (λ c, c.1 = name) (columns df1)).
Proof.
  assert (Hraise : clean_dataset fatalities_table_clean = Raise ValueError)
    by reflexivity.
  split_and!; [exact clean_fatalities_table|reflexivity|exact Hraise|].
  intros H. destruct (H _ _ clean_fatalities_table) as (df2 & Hdf2 & _).
  rewrite Hraise in Hdf2. discriminate Hdf2.
Qed.
